(** * DFPlayer-Mini driver (lib/DFPlayer.py): protocol layer in Rocq

    A shallow embedding of the [DFPlayer] class: the frame codec
    ([_write_data], [_read_data]), the response poller ([_read_response]),
    the settle delays and the public commands built from them.

    Python integers are [Z]; a [bytes] object is a [list byte]; the methods
    are state transformers over the driver object and may raise. *)

From Stdlib Require Import ZArith List Bool Lia.
From Stdlib Require Import Strings.Byte.
From Stdlib Require Import Floats.
Import ListNotations.

Local Open Scope Z_scope.

(** ** Bytes *)

Module Bytes.

(** The value of a byte as a Python integer (indexing a [bytes] object). *)
Definition to_Z (b : byte) : Z := Z.of_N (Byte.to_N b).

(** One element of [bytes([...])]: a value outside [range(0, 256)] makes the
    constructor raise [ValueError]. *)
Definition of_Z (z : Z) : option byte :=
  if z <? 0 then None else Byte.of_N (Z.to_N z).

(** [bytes(l)] for a list of integers. *)
Fixpoint of_list (l : list Z) : option (list byte) :=
  match l with
  | [] => Some []
  | z :: l' =>
      match of_Z z, of_list l' with
      | Some b, Some bs => Some (b :: bs)
      | _, _ => None
      end
  end.

(** [struct.unpack(">H", bs)[0]] on a two-byte slice. *)
Definition unpack_be16 (hi lo : byte) : Z := to_Z hi * 256 + to_Z lo.

End Bytes.

(** ** Python floats

    [float] is IEEE 754 binary64; the driver only divides and multiplies small
    non-negative integers and truncates the result with [int()]. *)

Module PyFloat.

(** Conversion of an integer operand to [float]; exact below 2^53, which
    covers every operand the driver produces (at most 65535). *)
Definition of_Z (z : Z) : float :=
  if z <? 0 then PrimFloat.opp (PrimFloat.of_uint63 (Uint63.of_Z (- z)))
  else PrimFloat.of_uint63 (Uint63.of_Z z).

(** [a / b] on integers: true division. *)
Definition truediv (a b : Z) : float := PrimFloat.div (of_Z a) (of_Z b).

(** [x * n] with [x] a float and [n] an integer. *)
Definition mul_int (x : float) (n : Z) : float := PrimFloat.mul x (of_Z n).

(** [int(x)]: truncation toward zero.  A non-finite [x] makes Python raise;
    the driver's operands are quotients and products of bounded
    integers, so that case is given the value 0 here. *)
Definition to_int (x : float) : Z :=
  match Prim2SF x with
  | S754_finite sgn m e =>
      let mag := if (0 <=? e) then Z.shiftl (Z.pos m) e
                 else Z.shiftr (Z.pos m) (- e) in
      if sgn then - mag else mag
  | _ => 0
  end.

End PyFloat.

(** ** The serial transport

    The driver uses three members of the UART object: [in_waiting], [read]
    and [write].  The simulated transport holds the bytes ready to be read
    ([rx]), the frames written so far, oldest first ([tx]), and the replies
    the device will make to the coming writes ([script]): the reply to a
    write is in [rx] by the time the write and its settle delay are over. *)

Module UART.

Record t := mk {
  rx : list byte;
  tx : list (list byte);
  script : list (list byte)
}.

(** [uart.in_waiting] *)
Definition in_waiting (u : t) : Z := Z.of_nat (length (rx u)).

(** [uart.read(n)]: up to [n] of the bytes that are ready. *)
Definition read (n : nat) (u : t) : list byte * t :=
  (firstn n (rx u), mk (skipn n (rx u)) (tx u) (script u)).

(** [uart.write(frame)] *)
Definition write (frame : list byte) (u : t) : t :=
  mk (rx u ++ hd [] (script u)) (tx u ++ [frame]) (tl (script u)).

End UART.

(** ** Exceptions and the method monad *)

Inductive exn : Type :=
| ValueError_bytes   (* bytes(): an element is not in range(0, 256) *)
| ValueError_track   (* "Track must be between 1 and 9999" *)
| ValueError_sleep   (* time.sleep(): "sleep length must be non-negative" *)
| Exception_init.    (* "DFPlayer could not be initialized." *)

Inductive result (A : Type) : Type :=
| Ok (a : A)
| Raise (e : exn).

Arguments Ok {A} a.
Arguments Raise {A} e.

(** The driver object.  [_latency] and [slept] are in milliseconds; [slept]
    is the total time spent in [time.sleep] so far.  The latency is whatever
    number the constructor was given, negative ones included. *)
Record DFPlayer := mkDFPlayer {
  _uart : UART.t;
  _latency : Z;
  _media : Z;
  slept : Z
}.

(** A method: it runs on the object, returns or raises, and leaves the
    object in a new state. *)
Definition M (A : Type) : Type := DFPlayer -> result A * DFPlayer.

Definition ret {A} (a : A) : M A := fun s => (Ok a, s).

Definition raise {A} (e : exn) : M A := fun s => (Raise e, s).

Definition bind {A B} (m : M A) (f : A -> M B) : M B :=
  fun s =>
    match m s with
    | (Ok a, s') => f a s'
    | (Raise e, s') => (Raise e, s')
    end.

Declare Scope method_scope.
Delimit Scope method_scope with method.

Notation "x <- m ;; k" := (bind m (fun x => k))
  (at level 61, m at next level, right associativity) : method_scope.
Notation "m ;; k" := (bind m (fun _ => k))
  (at level 61, right associativity) : method_scope.

Local Open Scope method_scope.

(** ** Class constants *)

Definition MEDIA_U_DISK : Z := 1.
Definition MEDIA_SD : Z := 2.
Definition MEDIA_AUX : Z := 3.
Definition MEDIA_SLEEP : Z := 4.
Definition MEDIA_FLASH : Z := 5.

Definition EQ_NORMAL : Z := 0.

Definition MAX_VOLUME : Z := 0x1E.

(** ** Frame codec and timing *)

(** [x in {...}] on integers. *)
Definition mem (x : Z) (l : list Z) : bool := existsb (Z.eqb x) l.

(** The "give device some time" block of [_write_data]: the argument of the
    [time.sleep] that follows the write, in milliseconds ([pass] sleeps for
    none). *)
Definition settle_delay (latency cmd : Z) : Z :=
  if cmd =? 0x09 then 200
  else if cmd =? 0x0C then 1000
  else if mem cmd [0x47; 0x48; 0x49; 0x4E] then 500
  else if mem cmd [0x03; 0x0D; 0x0F; 0x12; 0x13] || mem cmd [0x16] then 0
  else latency.

(** The list handed to [bytes(...)] in [_write_data]. *)
Definition frame_ints (cmd dataL dataH : Z) : list Z :=
  [0x7E; 0xFF; 0x06; cmd; 0x00; dataH; dataL; 0xEF].

(** [time.sleep(ms / 1000)]: a negative length raises [ValueError]. *)
Definition sleep (ms : Z) : M unit :=
  fun s =>
    if ms <? 0 then (Raise ValueError_sleep, s)
    else (Ok tt, mkDFPlayer (_uart s) (_latency s) (_media s) (slept s + ms)).

(** The frame is built (and may be refused by [bytes()]), written to the
    transport, and the sleep follows; of the sleeps only the one of the last
    branch, [time.sleep(self._latency)], can have a negative length. *)
Definition _write_data (cmd dataL dataH : Z) : M unit :=
  fun s =>
    match Bytes.of_list (frame_ints cmd dataL dataH) with
    | None => (Raise ValueError_bytes, s)
    | Some frame =>
        sleep (settle_delay (_latency s) cmd)
          (mkDFPlayer (UART.write frame (_uart s)) (_latency s) (_media s)
                      (slept s))
    end.

(** [buf[i]] *)
Definition byte_at (buf : list byte) (i : nat) : Z := Bytes.to_Z (nth i buf x00).

(** Lines 96-103 of [_read_data]: the checks on the buffer that was read and
    the extraction of the command and the data word. *)
Definition decode (buf : list byte) : option (Z * Z) :=
  if (length buf =? 0)%nat || negb (length buf =? 10)%nat then None
  else if negb (byte_at buf 0 =? 0x7E) || negb (byte_at buf 1 =? 0xFF)
          || negb (byte_at buf 2 =? 0x06) || negb (byte_at buf 9 =? 0xEF)
  then None
  else Some (byte_at buf 3, Bytes.unpack_be16 (nth 5 buf x00) (nth 6 buf x00)).

(** [_read_data] has no raising path: it returns a pair or [None]. *)
Definition _read_data (s : DFPlayer) : option (Z * Z) * DFPlayer :=
  if UART.in_waiting (_uart s) =? 0 then (None, s)
  else
    let (buf, u) := UART.read 10 (_uart s) in
    (decode buf, mkDFPlayer u (_latency s) (_media s) (slept s)).

(** The [while True] loop of [_read_response], with a bound on the number of
    iterations; [None] is the loop still running when the bound is reached. *)
Fixpoint poll (fuel : nat) (res : option (Z * Z)) (s : DFPlayer)
  : option (option (Z * Z) * DFPlayer) :=
  match fuel with
  | O => None
  | S fuel' =>
      match _read_data s with
      | (Some r, s') => poll fuel' (Some r) s'
      | (None, s') => Some (res, s')
      end
  end.

(** Every iteration that does not return takes bytes out of [rx], so one
    more iteration than there are bytes is enough ([poll_returns] below). *)
Definition _read_response : M (option (Z * Z)) :=
  fun s =>
    match poll (S (length (UART.rx (_uart s)))) None s with
    | Some (res, s') => (Ok res, s')
    | None => (Ok None, s)
    end.

(** ** Playback control *)

Definition play (folder track : option Z) : M unit :=
  match folder, track with
  | None, None => _write_data 0x0D 0 0
  | None, Some track => _write_data 0x03 (track mod 256) (track / 256)
  | Some folder, None => _write_data 0x12 folder 0
  | Some folder, Some track => _write_data 0x0F track folder
  end.

Definition random : M unit := _write_data 0x18 0 0.

Definition play_advert (track : Z) : M unit :=
  if negb ((1 <=? track) && (track <=? 9999)) then raise ValueError_track
  else _write_data 0x13 (track mod 256) (track / 256).

Definition stop_advert : M unit := _write_data 0x15 0 0.

Definition pause : M unit := _write_data 0x0E 0 0.

Definition stop : M unit := _write_data 0x16 0 0.

Definition next : M unit := _write_data 0x01 0 0.

Definition previous : M unit := _write_data 0x02 0 0.

Definition loop (on : bool) : M unit := _write_data 0x19 (if on then 0 else 1) 0.

Definition loop_all (on : bool) : M unit := _write_data 0x11 (if on then 1 else 0) 0.

Definition loop_folder (folder : Z) : M unit := _write_data 0x17 folder 0.

(** ** Volume and equaliser *)

Definition volume_up : M unit := _write_data 0x04 0 0.

Definition volume_down : M unit := _write_data 0x05 0 0.

(** [int(percent * MAX_VOLUME / 100)] *)
Definition volume_raw_of_pct (percent : Z) : Z :=
  PyFloat.to_int (PyFloat.truediv (percent * MAX_VOLUME) 100).

(** [int(r[1] / MAX_VOLUME * 100)] *)
Definition volume_pct_of_raw (raw : Z) : Z :=
  PyFloat.to_int (PyFloat.mul_int (PyFloat.truediv raw MAX_VOLUME) 100).

Definition set_volume (percent : Z) : M unit :=
  let percent := Z.max 0 (Z.min 100 percent) in
  _write_data 0x06 (volume_raw_of_pct percent) 0.

Definition get_volume : M Z :=
  _write_data 0x43 0 0 ;;
  r <- _read_response ;;
  ret match r with
      | Some (c, d) => if c =? 0x43 then volume_pct_of_raw d else 0
      | None => 0
      end.

Definition set_eq (eq : Z) : M unit :=
  let eq := if (eq <? 0) || (eq >? 5) then 0 else eq in
  _write_data 0x07 eq 0.

Definition get_eq : M Z :=
  _write_data 0x44 0 0 ;;
  r <- _read_response ;;
  ret match r with
      | Some (c, d) => if c =? 0x44 then d else 0
      | None => 0
      end.

(** ** Media and power control *)

Definition set_media (media : Z) : M unit :=
  fun s =>
    _write_data 0x09 media 0
      (mkDFPlayer (_uart s) (_latency s) media (slept s)).

Definition set_standby (on : bool) : M unit :=
  _write_data (if on then 0x0A else 0x0B) 0 0.

Definition reset : M unit := _write_data 0x0C 0 0.

(** ** Status queries: [None] is Python's [None] *)

Definition get_status : M (option Z) :=
  _write_data 0x42 0 0 ;;
  r <- _read_response ;;
  ret match r with
      | Some (c, d) => if c =? 0x42 then Some d else None
      | None => None
      end.

Definition get_mode : M (option Z) :=
  _write_data 0x45 0 0 ;;
  r <- _read_response ;;
  ret match r with
      | Some (c, d) => if c =? 0x45 then Some d else None
      | None => None
      end.

Definition get_version : M (option Z) :=
  _write_data 0x46 0 0 ;;
  r <- _read_response ;;
  ret match r with
      | Some (c, d) => if c =? 0x46 then Some d else None
      | None => None
      end.

Definition current_file : M (option Z) :=
  _write_data 0x4C 0 0 ;;
  r <- _read_response ;;
  ret match r with
      | Some (c, d) => if c =? 0x4C then Some d else None
      | None => None
      end.

(** The dictionary literal of [num_files], as its list of items. *)
Definition media_query_table : list (Z * Z) :=
  [(MEDIA_U_DISK, 0x47); (MEDIA_SD, 0x48); (MEDIA_FLASH, 0x49)].

(** [dict.get(key)] *)
Fixpoint dict_get (d : list (Z * Z)) (key : Z) : option Z :=
  match d with
  | [] => None
  | (k, v) :: d' => if k =? key then Some v else dict_get d' key
  end.

(** [x or y] for an optional integer [x]: [None] and [0] are false. *)
Definition or_else (x : option Z) (y : Z) : Z :=
  match x with
  | Some v => if v =? 0 then y else v
  | None => y
  end.

Definition num_files (folder media : option Z) : M Z :=
  match folder with
  | Some folder =>
      _write_data 0x4E folder 0 ;;
      r <- _read_response ;;
      ret match r with
          | Some (c, d) => if c =? 0x4E then d else 0
          | None => 0
          end
  | None =>
      fun s =>
        let media := or_else media (_media s) in
        match dict_get media_query_table media with
        | None => ret 0 s
        | Some cmd =>
            if cmd =? 0 then ret 0 s
            else
              (_write_data cmd 0 0 ;;
               r <- _read_response ;;
               ret match r with
                   | Some (c, d) => if c =? cmd then d else 0
                   | None => 0
                   end) s
        end
  end.

(** ** Construction *)

(** [not x] for the value returned by [get_status]. *)
Definition falsy (x : option Z) : bool :=
  match x with
  | Some v => v =? 0
  | None => true
  end.

(** [DFPlayer(uart, media, volume_pct, eq, latency)].  The object starts with
    [_uart] and [_latency]; [_media] has no value until [set_media], the first
    call, assigns it. *)
Definition __init__ (uart : UART.t) (media volume_pct eq latency : Z)
  : result unit * DFPlayer :=
  (set_media media ;;
   status <- get_status ;;
   if falsy status then raise Exception_init
   else (set_volume volume_pct ;; set_eq eq))
  (mkDFPlayer uart latency 0 0).

(** The keyword defaults of the constructor ([latency=0.100] seconds). *)
Definition default_media : Z := MEDIA_SD.
Definition default_volume_pct : Z := 50.
Definition default_eq : Z := EQ_NORMAL.
Definition default_latency : Z := 100.

(** ** The synthetic response of the round-trip property

    Follows the specification's words, not the source: the 10-byte analog of
    an 8-byte command frame keeps its markers, command and data bytes and
    adds a feedback byte and two checksum bytes. *)
Definition response_of_command (frame : list byte) (fb ck_hi ck_lo : byte)
  : list byte :=
  match frame with
  | [start; ver; len; cmd; _; data_hi; data_lo; stop] =>
      [start; ver; len; cmd; fb; data_hi; data_lo; ck_hi; ck_lo; stop]
  | _ => []
  end.

(** ** Simulated transport states used in the statements below *)

(** The object with other bytes ready in the transport. *)
Definition with_rx (bytes : list byte) (s : DFPlayer) : DFPlayer :=
  mkDFPlayer (UART.mk bytes (UART.tx (_uart s)) (UART.script (_uart s)))
             (_latency s) (_media s) (slept s).

(** The result of decoding a run of frames one after the other, starting
    from [res]: the last one decoded. *)
Definition last_decoded (frames : list (list byte)) (res : option (Z * Z))
  : option (Z * Z) :=
  fold_left (fun _ frame => decode frame) frames res.

(** The drain as the specification words it, not as the source has it: the
    bytes ready are cut into 10-byte chunks, every chunk is decoded, invalid
    ones are skipped, and the last valid frame is the result. *)
Fixpoint chunks (fuel : nat) (bytes : list byte) : list (list byte) :=
  match fuel, bytes with
  | O, _ => []
  | _, [] => []
  | S fuel', _ => firstn 10 bytes :: chunks fuel' (skipn 10 bytes)
  end.

Definition drain_latest_claimed (bytes : list byte) : option (Z * Z) :=
  fold_left (fun res chunk =>
               match decode chunk with
               | Some r => Some r
               | None => res
               end)
            (chunks (length bytes) bytes) None.

(** The shape of a query, in the specification's words: the query sends its
    command, drains the transport, and returns the data of the drained frame
    when that frame echoes the command, and the absent value when no frame
    was drained or the echo differs. *)
Definition answers {A} (query : M A) (cmd dataL : Z) (present : Z -> A)
    (absent : A) (s : DFPlayer) : Prop :=
  exists s1 r s2,
    _write_data cmd dataL 0 s = (Ok tt, s1)
    /\ _read_response s1 = (Ok r, s2)
    /\ exists v,
        query s = (Ok v, s2)
        /\ (forall d, r = Some (cmd, d) -> v = present d)
        /\ ((forall d, r <> Some (cmd, d)) -> v = absent).

Module Sim.

(** A transport with nothing to read and a device that never answers. *)
Definition silent : UART.t := UART.mk [] [] [].

(** A driver on the silent transport: SD card, default latency. *)
Definition idle : DFPlayer := mkDFPlayer silent default_latency MEDIA_SD 0.

(** Response frames as the device sends them. *)
Definition reply (cmd data_hi data_lo : byte) : list byte :=
  [x7e; xff; x06; cmd; x00; data_hi; data_lo; xfe; xb7; xef].

(** Status reply "stopped, SD card" (0x0200). *)
Definition status_stopped : list byte := reply x42 x02 x00.

(** Ten bytes of line noise: the start marker is wrong. *)
Definition noise : list byte :=
  [x00; xff; x06; x42; x00; x02; x00; xfe; xb7; xef].

(** A device that answers the [n]-th write with the [n]-th reply. *)
Definition device (replies : list (list byte)) : UART.t := UART.mk [] [] replies.

(** A driver whose device answers the next write with the given bytes. *)
Definition answering (bytes : list byte) : DFPlayer :=
  mkDFPlayer (device [bytes]) default_latency MEDIA_SD 0.

(** A driver with a backlog in the transport: a volume reply, a status
    reply, ten bytes of noise, and a second status reply. *)
Definition backlog : DFPlayer :=
  with_rx (concat [reply x43 x00 x0f; status_stopped] ++ noise ++ status_stopped)
          idle.

End Sim.

(** ** Command frames and calls, for the properties of all methods *)

(** The fixed part of the frame layout of [_write_data]: eight bytes, the
    three header bytes, feedback off, the stop byte. *)
Definition is_command_frame (frame : list byte) : bool :=
  (length frame =? 8)%nat
  && (byte_at frame 0 =? 0x7E) && (byte_at frame 1 =? 0xFF)
  && (byte_at frame 2 =? 0x06) && (byte_at frame 4 =? 0x00)
  && (byte_at frame 7 =? 0xEF).

(** The time spent in [time.sleep] between two states of the object, in
    milliseconds. *)
Definition elapsed (s s' : DFPlayer) : Z := slept s' - slept s.

(** A check of a decidable property on the [n] integers from [start] on. *)
Fixpoint all_from (P : Z -> bool) (start : Z) (n : nat) : bool :=
  match n with
  | O => true
  | S n' => P start && all_from P (start + 1) n'
  end.

Module Api.

(** The public methods of the class, one constructor each. *)
Inductive call : Type :=
| do_play (folder track : option Z)
| do_random
| do_play_advert (track : Z)
| do_stop_advert
| do_pause
| do_stop
| do_next
| do_previous
| do_loop (on : bool)
| do_loop_all (on : bool)
| do_loop_folder (folder : Z)
| do_volume_up
| do_volume_down
| do_set_volume (percent : Z)
| do_get_volume
| do_set_eq (eq : Z)
| do_get_eq
| do_set_media (media : Z)
| do_set_standby (on : bool)
| do_reset
| do_get_status
| do_get_mode
| do_get_version
| do_current_file
| do_num_files (folder media : option Z).

(** A method run for its effect: the value it returns is dropped. *)
Definition ignore {A} (m : M A) : M unit := bind m (fun _ => ret tt).

Definition exec (c : call) : M unit :=
  match c with
  | do_play folder track => play folder track
  | do_random => random
  | do_play_advert track => play_advert track
  | do_stop_advert => stop_advert
  | do_pause => pause
  | do_stop => stop
  | do_next => next
  | do_previous => previous
  | do_loop on => loop on
  | do_loop_all on => loop_all on
  | do_loop_folder folder => loop_folder folder
  | do_volume_up => volume_up
  | do_volume_down => volume_down
  | do_set_volume percent => set_volume percent
  | do_get_volume => ignore get_volume
  | do_set_eq eq => set_eq eq
  | do_get_eq => ignore get_eq
  | do_set_media media => set_media media
  | do_set_standby on => set_standby on
  | do_reset => reset
  | do_get_status => ignore get_status
  | do_get_mode => ignore get_mode
  | do_get_version => ignore get_version
  | do_current_file => ignore current_file
  | do_num_files folder media => ignore (num_files folder media)
  end.

(** A program using the driver: the calls one after the other, up to the
    first one that raises. *)
Fixpoint run (cs : list call) : M unit :=
  match cs with
  | [] => ret tt
  | c :: cs' => bind (exec c) (fun _ => run cs')
  end.


(** What one call may do to the object: the latency stays; a call that
    raises has slept nothing, and either it was refused before any write
    (the transport is untouched), or its sleep was refused, which takes a
    negative latency and comes after one command frame was written; a call
    that returns has sent nothing, or one command frame followed by the
    settle delay of the command in that frame. *)
Definition call_effect (s : DFPlayer) (out : result unit * DFPlayer) : Prop :=
  _latency (snd out) = _latency s
  /\ match fst out with
     | Raise e =>
         slept (snd out) = slept s
         /\ (((e = ValueError_bytes \/ e = ValueError_track)
              /\ _uart (snd out) = _uart s)
             \/ (e = ValueError_sleep /\ _latency s < 0
                 /\ exists frame,
                     is_command_frame frame = true
                     /\ UART.tx (_uart (snd out))
                        = UART.tx (_uart s) ++ [frame]))
     | Ok _ =>
         (UART.tx (_uart (snd out)) = UART.tx (_uart s)
          /\ slept (snd out) = slept s)
         \/ exists frame,
             is_command_frame frame = true
             /\ UART.tx (_uart (snd out)) = UART.tx (_uart s) ++ [frame]
             /\ elapsed s (snd out)
                = settle_delay (_latency s) (byte_at frame 3)
     end.

End Api.

(** * Properties *)

(** ** Bytes and integers *)

Lemma to_Z_range (b : byte) : 0 <= Bytes.to_Z b <= 255.
Proof.
  unfold Bytes.to_Z. pose proof (Byte.to_N_bounded b). lia.
Qed.

Lemma of_Z_to_Z (b : byte) : Bytes.of_Z (Bytes.to_Z b) = Some b.
Proof.
  unfold Bytes.of_Z, Bytes.to_Z.
  destruct (Z.ltb_spec (Z.of_N (Byte.to_N b)) 0) as [H|_]; [lia|].
  rewrite N2Z.id. apply Byte.of_to_N.
Qed.

Lemma of_Z_Some (z : Z) (b : byte) : Bytes.of_Z z = Some b -> Bytes.to_Z b = z.
Proof.
  unfold Bytes.of_Z, Bytes.to_Z.
  destruct (Z.ltb_spec z 0) as [H|H]; [discriminate|].
  intros E. apply Byte.to_of_N in E. rewrite E. lia.
Qed.

Lemma of_Z_in_range (z : Z) :
  0 <= z <= 255 -> exists b, Bytes.of_Z z = Some b /\ Bytes.to_Z b = z.
Proof.
  intros Hz. destruct (Bytes.of_Z z) as [b|] eqn:E.
  - exists b. split; [reflexivity | now apply of_Z_Some].
  - exfalso. unfold Bytes.of_Z in E.
    destruct (Z.ltb_spec z 0) as [H|H]; [lia|].
    apply Byte.of_N_None_iff in E. lia.
Qed.

Lemma of_Z_None_iff (z : Z) : Bytes.of_Z z = None <-> ~ (0 <= z <= 255).
Proof.
  split.
  - intros E Hz. destruct (of_Z_in_range z Hz) as (b & Hb & _). congruence.
  - intros Hz. destruct (Bytes.of_Z z) as [b|] eqn:E; [|reflexivity].
    apply of_Z_Some in E. pose proof (to_Z_range b). lia.
Qed.

Lemma of_Z_literal (b : byte) (z : Z) : Bytes.to_Z b = z -> Bytes.of_Z z = Some b.
Proof. intros <-. apply of_Z_to_Z. Qed.

(** The frame built by [_write_data] when its three arguments are bytes. *)
Lemma frame_bytes (cmd dataL dataH : Z) (c l h : byte) :
  Bytes.of_Z cmd = Some c -> Bytes.of_Z dataL = Some l ->
  Bytes.of_Z dataH = Some h ->
  Bytes.of_list (frame_ints cmd dataL dataH) = Some [x7e; xff; x06; c; x00; h; l; xef].
Proof.
  intros Hc Hl Hh. unfold frame_ints. cbn [Bytes.of_list].
  rewrite Hc, Hl, Hh.
  rewrite (of_Z_literal x7e), (of_Z_literal xff), (of_Z_literal x06),
    (of_Z_literal x00), (of_Z_literal xef) by reflexivity.
  reflexivity.
Qed.

(** [bytes(...)] raises exactly when one of the three arguments is not a
    byte. *)
Lemma frame_rejected (cmd dataL dataH : Z) :
  Bytes.of_list (frame_ints cmd dataL dataH) = None <->
  ~ (0 <= cmd <= 255 /\ 0 <= dataL <= 255 /\ 0 <= dataH <= 255).
Proof.
  split.
  - intros E (Hc & Hl & Hh).
    destruct (of_Z_in_range _ Hc) as (c & Ec & _).
    destruct (of_Z_in_range _ Hl) as (l & El & _).
    destruct (of_Z_in_range _ Hh) as (h & Eh & _).
    rewrite (frame_bytes _ _ _ _ _ _ Ec El Eh) in E. discriminate.
  - intros Hn.
    destruct (Bytes.of_Z cmd) as [c|] eqn:Ec;
      [|unfold frame_ints; cbn [Bytes.of_list]; rewrite Ec;
        repeat match goal with |- context [Bytes.of_Z ?z] =>
          is_var z; destruct (Bytes.of_Z z) end;
        vm_compute; reflexivity].
    destruct (Bytes.of_Z dataL) as [l|] eqn:El.
    + destruct (Bytes.of_Z dataH) as [h|] eqn:Eh.
      * exfalso. apply Hn.
        apply of_Z_Some in Ec, El, Eh.
        pose proof (to_Z_range c). pose proof (to_Z_range l).
        pose proof (to_Z_range h). lia.
      * unfold frame_ints. cbn [Bytes.of_list]. rewrite Ec, El, Eh.
        vm_compute. reflexivity.
    + unfold frame_ints. cbn [Bytes.of_list]. rewrite Ec, El.
      destruct (Bytes.of_Z dataH); vm_compute; reflexivity.
Qed.

(** ** Decoding (C4) *)

Lemma decode_cases (buf : list byte) :
  decode buf =
  if (length buf =? 10)%nat && (byte_at buf 0 =? 0x7E) && (byte_at buf 1 =? 0xFF)
     && (byte_at buf 2 =? 0x06) && (byte_at buf 9 =? 0xEF)
  then Some (byte_at buf 3, byte_at buf 5 * 256 + byte_at buf 6)
  else None.
Proof.
  unfold decode.
  destruct (Nat.eqb_spec (length buf) 10) as [H10|H10]; cbn [negb andb orb].
  - rewrite H10. cbn [Nat.eqb orb].
    destruct (byte_at buf 0 =? 0x7E), (byte_at buf 1 =? 0xFF),
      (byte_at buf 2 =? 0x06), (byte_at buf 9 =? 0xEF); reflexivity.
  - now rewrite orb_true_r.
Qed.

Lemma decode_data_range (buf : list byte) (c d : Z) :
  decode buf = Some (c, d) -> 0 <= c <= 255 /\ 0 <= d <= 65535.
Proof.
  rewrite decode_cases.
  destruct (_ && _); [|discriminate].
  intros [= <- <-]. unfold byte_at.
  pose proof (to_Z_range (nth 3 buf x00)).
  pose proof (to_Z_range (nth 5 buf x00)).
  pose proof (to_Z_range (nth 6 buf x00)). lia.
Qed.

(** C4.  Decoding returns no frame exactly when the buffer is not 10 bytes
    long or one of the start, version, length and stop markers is wrong; a
    buffer that passes gives the command echo (byte 3) and the data word
    [byte 5 * 256 + byte 6]; the feedback byte and the two checksum bytes
    have no influence on the result. *)
Theorem decode_no_frame_iff (buf : list byte) :
  (decode buf = None <->
     (length buf <> 10%nat \/ byte_at buf 0 <> 0x7E \/ byte_at buf 1 <> 0xFF
      \/ byte_at buf 2 <> 0x06 \/ byte_at buf 9 <> 0xEF))
  /\ (decode buf <> None ->
      decode buf = Some (byte_at buf 3, byte_at buf 5 * 256 + byte_at buf 6))
  /\ (forall b0 b1 b2 b3 b4 b5 b6 b7 b8 b9 fb ck_hi ck_lo : byte,
        decode [b0; b1; b2; b3; b4; b5; b6; b7; b8; b9]
        = decode [b0; b1; b2; b3; fb; b5; b6; ck_hi; ck_lo; b9]).
Proof.
  split; [|split].
  - rewrite decode_cases.
    destruct (Nat.eqb_spec (length buf) 10) as [H10|H10];
      destruct (Z.eqb_spec (byte_at buf 0) 0x7E) as [H0|H0];
      destruct (Z.eqb_spec (byte_at buf 1) 0xFF) as [H1|H1];
      destruct (Z.eqb_spec (byte_at buf 2) 0x06) as [H2|H2];
      destruct (Z.eqb_spec (byte_at buf 9) 0xEF) as [H9|H9];
      cbn [andb]; split; intros H; try reflexivity; try discriminate; tauto.
  - rewrite decode_cases. destruct (_ && _); [reflexivity | congruence].
  - intros. rewrite !decode_cases. reflexivity.
Qed.

(** ** Encode and decode (C5) *)

Lemma bind_ok {A B} (m : M A) (f : A -> M B) (s s' : DFPlayer) (a : A) :
  m s = (Ok a, s') -> bind m f s = f a s'.
Proof. intros E. unfold bind. now rewrite E. Qed.

Lemma bind_raise {A B} (m : M A) (f : A -> M B) (s s' : DFPlayer) (e : exn) :
  m s = (Raise e, s') -> bind m f s = (Raise e, s').
Proof. intros E. unfold bind. now rewrite E. Qed.

(** The sign of the sleep: only the latency can make it negative. *)
Lemma settle_delay_nonneg (latency cmd : Z) :
  0 <= latency -> 0 <= settle_delay latency cmd.
Proof.
  intros H. unfold settle_delay.
  repeat match goal with |- context [if ?b then _ else _] => destruct b end;
    lia.
Qed.

Lemma settle_delay_neg (latency cmd : Z) :
  settle_delay latency cmd < 0 -> settle_delay latency cmd = latency.
Proof.
  unfold settle_delay.
  repeat match goal with |- context [if ?b then _ else _] => destruct b end;
    lia.
Qed.

(** What a successful [_write_data] does to the object. *)
Lemma write_data_ok (cmd dataL dataH : Z) (frame : list byte) (s : DFPlayer) :
  Bytes.of_list (frame_ints cmd dataL dataH) = Some frame ->
  0 <= settle_delay (_latency s) cmd ->
  _write_data cmd dataL dataH s =
  (Ok tt, mkDFPlayer (UART.write frame (_uart s)) (_latency s) (_media s)
                     (slept s + settle_delay (_latency s) cmd)).
Proof.
  intros E Hd. unfold _write_data, sleep. rewrite E.
  destruct (Z.ltb_spec (settle_delay (_latency s) cmd) 0); [lia | reflexivity].
Qed.

(** A negative sleep raises after the frame has been written. *)
Lemma write_data_sleep_error (cmd dataL dataH : Z) (frame : list byte)
    (s : DFPlayer) :
  Bytes.of_list (frame_ints cmd dataL dataH) = Some frame ->
  settle_delay (_latency s) cmd < 0 ->
  _write_data cmd dataL dataH s =
  (Raise ValueError_sleep,
   mkDFPlayer (UART.write frame (_uart s)) (_latency s) (_media s) (slept s)).
Proof.
  intros E Hd. unfold _write_data, sleep. rewrite E.
  destruct (Z.ltb_spec (settle_delay (_latency s) cmd) 0); [reflexivity | lia].
Qed.

(** Whatever the sleep does, an accepted frame is on the wire. *)
Lemma write_data_written (cmd dataL dataH : Z) (frame : list byte)
    (s : DFPlayer) :
  Bytes.of_list (frame_ints cmd dataL dataH) = Some frame ->
  _uart (snd (_write_data cmd dataL dataH s)) = UART.write frame (_uart s).
Proof.
  intros E. unfold _write_data, sleep. rewrite E.
  now destruct (settle_delay (_latency s) cmd <? 0).
Qed.

(** C5.  For a command code and two data bytes in [0,255], [_write_data]
    sends an 8-byte frame, and the decoder fed the 10-byte response with the
    same markers, command and data bytes, whatever its feedback and checksum
    bytes, returns [(cmd, dataH * 256 + dataL)].  The frame is on the wire
    whatever the latency; the call returns when the latency is not
    negative. *)
Theorem encode_decode_roundtrip (cmd dataL dataH : Z) (fb ck_hi ck_lo : byte)
    (s : DFPlayer) :
  0 <= cmd <= 255 -> 0 <= dataL <= 255 -> 0 <= dataH <= 255 ->
  exists frame,
    UART.tx (_uart (snd (_write_data cmd dataL dataH s)))
    = UART.tx (_uart s) ++ [frame]
    /\ length frame = 8%nat
    /\ decode (response_of_command frame fb ck_hi ck_lo)
       = Some (cmd, dataH * 256 + dataL)
    /\ (0 <= _latency s -> fst (_write_data cmd dataL dataH s) = Ok tt).
Proof.
  intros Hc Hl Hh.
  destruct (of_Z_in_range _ Hc) as (c & Ec & Vc).
  destruct (of_Z_in_range _ Hl) as (l & El & Vl).
  destruct (of_Z_in_range _ Hh) as (h & Eh & Vh).
  pose proof (frame_bytes _ _ _ _ _ _ Ec El Eh) as Hf.
  eexists. split; [now rewrite (write_data_written _ _ _ _ s Hf)|].
  split; [reflexivity|]. split.
  - rewrite decode_cases. cbn [response_of_command length Nat.eqb].
    unfold byte_at. cbn [nth]. rewrite Vc, Vl, Vh. reflexivity.
  - intros H0.
    now rewrite (write_data_ok _ _ _ _ s Hf (settle_delay_nonneg _ _ H0)).
Qed.

(** Round trip of "set volume to 15": the frame written and the synthetic
    response built from it. *)
Lemma encode_decode_roundtrip_witness :
  0 <= 0x06 <= 255 /\ 0 <= 15 <= 255 /\ 0 <= 0 <= 255
  /\ exists frame,
      UART.tx (_uart (snd (_write_data 0x06 15 0 Sim.idle)))
      = UART.tx (_uart Sim.idle) ++ [frame]
      /\ length frame = 8%nat
      /\ decode (response_of_command frame x00 xfe xb7)
         = Some (0x06, 0 * 256 + 15)
      /\ (0 <= _latency Sim.idle -> fst (_write_data 0x06 15 0 Sim.idle) = Ok tt).
Proof.
  split; [lia|]. split; [lia|]. split; [lia|].
  apply (encode_decode_roundtrip 0x06 15 0 x00 xfe xb7 Sim.idle); lia.
Defined.

(** ** The response poller (C1) *)

Lemma read_data_empty (s : DFPlayer) :
  UART.rx (_uart s) = [] -> _read_data s = (None, s).
Proof.
  intros E. unfold _read_data, UART.in_waiting. now rewrite E.
Qed.

Lemma read_data_ready (s : DFPlayer) :
  UART.rx (_uart s) <> [] ->
  _read_data s =
  (decode (firstn 10 (UART.rx (_uart s))),
   with_rx (skipn 10 (UART.rx (_uart s))) s).
Proof.
  intros Hne. unfold _read_data, UART.in_waiting.
  destruct (UART.rx (_uart s)) as [|b l] eqn:E; [congruence|].
  destruct (Z.eqb_spec (Z.of_nat (length (b :: l))) 0) as [H0|_];
    [cbn [length] in H0; lia|].
  unfold UART.read, with_rx. now rewrite E.
Qed.

Lemma decode_length (buf : list byte) :
  decode buf <> None -> length buf = 10%nat.
Proof.
  rewrite decode_cases.
  destruct (Nat.eqb_spec (length buf) 10) as [H|H]; [easy|].
  cbn [andb]. congruence.
Qed.

(** The loop of [_read_response] returns: a bound above the number of bytes
    ready is never reached. *)
Lemma poll_returns (fuel : nat) :
  forall (res : option (Z * Z)) (s : DFPlayer),
    (length (UART.rx (_uart s)) < fuel)%nat ->
    exists out, poll fuel res s = Some out.
Proof.
  induction fuel as [|fuel IH]; intros res s Hlen; [lia|].
  cbn [poll].
  destruct (UART.rx (_uart s)) as [|b l] eqn:E.
  - rewrite (read_data_empty s E). eauto.
  - rewrite read_data_ready by congruence.
    destruct (decode _) as [r|]; [|eauto].
    apply IH. unfold with_rx. cbn [_uart UART.rx].
    rewrite length_skipn. rewrite E in *. cbn [length] in *. lia.
Qed.

(** A larger bound gives the same result. *)
Lemma poll_more_fuel (fuel : nat) :
  forall (fuel' : nat) (res : option (Z * Z)) (s : DFPlayer) out,
    poll fuel res s = Some out -> (fuel <= fuel')%nat ->
    poll fuel' res s = Some out.
Proof.
  induction fuel as [|fuel IH]; intros fuel' res s out H Hle; [discriminate|].
  destruct fuel' as [|fuel']; [lia|].
  cbn [poll] in *. destruct (_read_data s) as [[r|] s1]; [|assumption].
  apply (IH fuel'); [assumption | lia].
Qed.

Lemma read_response_poll (s : DFPlayer) (fuel : nat) out :
  poll fuel None s = Some out ->
  _read_response s = (Ok (fst out), snd out).
Proof.
  intros H. unfold _read_response.
  destruct (poll_returns (S (length (UART.rx (_uart s)))) None s) as [out' H'];
    [lia|].
  rewrite H'.
  destruct (Nat.le_ge_cases fuel (S (length (UART.rx (_uart s))))) as [Hle|Hle].
  - rewrite (poll_more_fuel _ _ _ _ _ H Hle) in H'. injection H' as <-.
    now destruct out.
  - rewrite (poll_more_fuel _ _ _ _ _ H' Hle) in H. injection H as <-.
    now destruct out'.
Qed.

(** [_read_response] never raises and never reaches the bound. *)
Lemma read_response_total (s : DFPlayer) :
  exists res s',
    _read_response s = (Ok res, s')
    /\ poll (S (length (UART.rx (_uart s)))) None s = Some (res, s').
Proof.
  destruct (poll_returns (S (length (UART.rx (_uart s)))) None s) as [[res s'] H];
    [lia|].
  exists res, s'. split; [|assumption].
  unfold _read_response. now rewrite H.
Qed.

Lemma firstn_frame {A} (n : nat) (l1 l2 : list A) :
  length l1 = n -> firstn n (l1 ++ l2) = l1.
Proof.
  intros <-. induction l1 as [|a l1 IH]; cbn; [now destruct l2 | now rewrite IH].
Qed.

Lemma skipn_frame {A} (n : nat) (l1 l2 : list A) :
  length l1 = n -> skipn n (l1 ++ l2) = l2.
Proof.
  intros <-. induction l1 as [|a l1 IH]; cbn; [reflexivity | assumption].
Qed.

(** What the loop does with the bytes in the transport: it decodes the
    10-byte frames one after the other as long as they are valid, stops at
    the first read that is not a valid frame (nothing ready, fewer than 10
    bytes, or a wrong marker), which it consumes, and returns the last frame
    decoded before that. *)
Lemma poll_valid_prefix (frames : list (list byte)) :
  forall (rest : list byte) (res : option (Z * Z)) (s : DFPlayer) (fuel : nat),
    Forall (fun frame => decode frame <> None) frames ->
    decode (firstn 10 rest) = None ->
    UART.rx (_uart s) = concat frames ++ rest ->
    (length frames < fuel)%nat ->
    poll fuel res s = Some (last_decoded frames res, with_rx (skipn 10 rest) s).
Proof.
  induction frames as [|frame frames IH]; intros rest res s fuel Hv Hrest Hrx Hfuel.
  - destruct fuel as [|fuel]; [cbn in Hfuel; lia|]. cbn [poll].
    cbn [concat app] in Hrx. unfold last_decoded. cbn [fold_left].
    destruct rest as [|b rest'].
    + rewrite (read_data_empty s Hrx). cbn [skipn].
      destruct s as [[rx tx sc] la me sl]. cbn in Hrx. subst rx. reflexivity.
    + rewrite read_data_ready by (rewrite Hrx; discriminate).
      rewrite Hrx, Hrest. reflexivity.
  - destruct fuel as [|fuel]; [cbn in Hfuel; lia|]. cbn [poll].
    inversion Hv as [|? ? Hf Hfs]; subst.
    pose proof (decode_length _ Hf) as Hlen.
    cbn [concat] in Hrx. rewrite <- app_assoc in Hrx.
    rewrite read_data_ready
      by (rewrite Hrx; destruct frame; [discriminate Hlen | discriminate]).
    rewrite Hrx, (firstn_frame 10 _ _ Hlen), (skipn_frame 10 _ _ Hlen).
    destruct (decode frame) as [r|] eqn:Ed; [|congruence].
    rewrite (IH rest (Some r) (with_rx (concat frames ++ rest) s) fuel);
      [| assumption | assumption | reflexivity | cbn [length] in Hfuel; lia].
    unfold last_decoded. cbn [fold_left]. now rewrite Ed.
Qed.

Lemma read_response_valid_prefix (frames : list (list byte)) (rest : list byte)
    (s : DFPlayer) :
  Forall (fun frame => decode frame <> None) frames ->
  decode (firstn 10 rest) = None ->
  UART.rx (_uart s) = concat frames ++ rest ->
  _read_response s = (Ok (last_decoded frames None), with_rx (skipn 10 rest) s).
Proof.
  intros Hv Hrest Hrx.
  apply (read_response_poll s (S (length frames))
           (last_decoded frames None, with_rx (skipn 10 rest) s)).
  apply poll_valid_prefix; auto.
Qed.


(** Two valid frames one after the other: the second is returned. *)
Lemma read_response_latest (f1 f2 : list byte) (r1 r2 : Z * Z) (s : DFPlayer) :
  decode f1 = Some r1 -> decode f2 = Some r2 ->
  UART.rx (_uart s) = f1 ++ f2 ->
  _read_response s = (Ok (Some r2), with_rx [] s).
Proof.
  intros H1 H2 Hrx.
  rewrite (read_response_valid_prefix [f1; f2] [] s).
  - unfold last_decoded. cbn [fold_left skipn]. now rewrite H2.
  - repeat constructor; congruence.
  - reflexivity.
  - cbn [concat]. now rewrite !app_nil_r.
Qed.

(** An invalid 10-byte frame ends the loop, whatever follows it. *)
Lemma read_response_invalid_first (bad rest : list byte) (s : DFPlayer) :
  length bad = 10%nat -> decode bad = None ->
  UART.rx (_uart s) = bad ++ rest ->
  _read_response s = (Ok None, with_rx rest s).
Proof.
  intros Hlen Hbad Hrx.
  rewrite (read_response_valid_prefix [] (bad ++ rest) s).
  - now rewrite (skipn_frame 10 _ _ Hlen).
  - constructor.
  - now rewrite (firstn_frame 10 _ _ Hlen).
  - assumption.
Qed.

(** On a run of valid frames, and nothing else, the loop and the drain of
    the specification agree. *)
Lemma chunks_frames (frames : list (list byte)) :
  forall fuel : nat,
    Forall (fun frame => length frame = 10%nat) frames ->
    (length frames <= fuel)%nat ->
    chunks fuel (concat frames) = frames.
Proof.
  induction frames as [|frame frames IH]; intros fuel Hlen Hfuel.
  - now destruct fuel.
  - inversion Hlen as [|? ? H10 Hrest]; subst.
    destruct fuel as [|fuel]; [cbn in Hfuel; lia|].
    cbn [concat]. destruct frame as [|b frame']; [discriminate H10|].
    cbn [chunks app]. change (b :: frame' ++ concat frames)
      with ((b :: frame') ++ concat frames).
    rewrite (firstn_frame 10 _ _ H10), (skipn_frame 10 _ _ H10).
    rewrite IH; [reflexivity | assumption | cbn [length] in Hfuel; lia].
Qed.

Lemma claimed_fold_valid (frames : list (list byte)) :
  forall res,
    Forall (fun frame => decode frame <> None) frames ->
    fold_left (fun res chunk =>
                 match decode chunk with
                 | Some r => Some r
                 | None => res
                 end) frames res
    = last_decoded frames res.
Proof.
  induction frames as [|frame frames IH]; intros res Hv; [reflexivity|].
  inversion Hv as [|? ? Hf Hfs]; subst.
  unfold last_decoded. cbn [fold_left].
  destruct (decode frame) as [r|]; [|congruence].
  apply IH. assumption.
Qed.

Lemma read_response_agrees_on_valid_frames (frames : list (list byte))
    (s : DFPlayer) :
  Forall (fun frame => decode frame <> None) frames ->
  UART.rx (_uart s) = concat frames ->
  _read_response s = (Ok (drain_latest_claimed (concat frames)), with_rx [] s).
Proof.
  intros Hv Hrx.
  assert (Hlen : Forall (fun frame => length frame = 10%nat) frames).
  { apply Forall_forall. intros f Hin. apply decode_length.
    rewrite Forall_forall in Hv. now apply Hv. }
  rewrite (read_response_valid_prefix frames [] s Hv eq_refl)
    by (now rewrite app_nil_r).
  unfold drain_latest_claimed.
  rewrite chunks_frames, claimed_fold_valid; try assumption; [reflexivity|].
  clear - Hlen. induction Hlen as [|f fs H10 _ IH]; [cbn; lia|].
  cbn [concat length]. rewrite length_app, H10. lia.
Qed.

(** C1.  The poller at ten bytes of noise followed by a valid status frame:
    the loop leaves at the invalid frame, returns no frame, and the valid
    frame stays unread in the transport, where the drain of the claim skips
    the noise and returns the status frame. *)
Theorem read_response_stops_at_invalid_frame :
  decode Sim.noise = None
  /\ decode Sim.status_stopped = Some (0x42, 0x0200)
  /\ drain_latest_claimed (Sim.noise ++ Sim.status_stopped) = Some (0x42, 0x0200)
  /\ _read_response (with_rx (Sim.noise ++ Sim.status_stopped) Sim.idle)
     = (Ok None, with_rx Sim.status_stopped Sim.idle).
Proof.
  split; [reflexivity|]. split; [reflexivity|]. split; [reflexivity|].
  rewrite (read_response_invalid_first Sim.noise Sim.status_stopped);
    reflexivity.
Qed.

(** ** Settle delays (C2) *)

Lemma mem_In (x : Z) (l : list Z) : mem x l = true <-> In x l.
Proof.
  unfold mem. rewrite existsb_exists. split.
  - intros (y & Hin & E). apply Z.eqb_eq in E. now subst.
  - intros Hin. exists x. split; [assumption | apply Z.eqb_refl].
Qed.

Lemma mem_not_In (x : Z) (l : list Z) : mem x l = false <-> ~ In x l.
Proof.
  rewrite <- mem_In. destruct (mem x l); split; congruence.
Qed.

(** The delay as a table on the command code. *)
Lemma settle_delay_table (latency cmd : Z) :
  (cmd = 0x09 -> settle_delay latency cmd = 200)
  /\ (cmd = 0x0C -> settle_delay latency cmd = 1000)
  /\ (In cmd [0x47; 0x48; 0x49; 0x4E] -> settle_delay latency cmd = 500)
  /\ (In cmd [0x03; 0x0D; 0x0F; 0x12; 0x13; 0x16] -> settle_delay latency cmd = 0)
  /\ (~ In cmd [0x09; 0x0C; 0x47; 0x48; 0x49; 0x4E;
                0x03; 0x0D; 0x0F; 0x12; 0x13; 0x16] ->
      settle_delay latency cmd = latency).
Proof.
  repeat split.
  - intros ->. reflexivity.
  - intros ->. reflexivity.
  - intros H. cbn [In] in H.
    repeat (destruct H as [<-|H]; [reflexivity|]). contradiction.
  - intros H. cbn [In] in H.
    repeat (destruct H as [<-|H]; [reflexivity|]). contradiction.
  - intros H. unfold settle_delay.
    destruct (Z.eqb_spec cmd 0x09) as [->|_]; [exfalso; apply H; cbn; tauto|].
    destruct (Z.eqb_spec cmd 0x0C) as [->|_]; [exfalso; apply H; cbn; tauto|].
    destruct (mem cmd [0x47; 0x48; 0x49; 0x4E]) eqn:E1;
      [apply mem_In in E1; exfalso; apply H; cbn [In] in *; tauto|].
    destruct (mem cmd [0x03; 0x0D; 0x0F; 0x12; 0x13]) eqn:E2;
      [apply mem_In in E2; exfalso; apply H; cbn [In] in *; tauto|].
    destruct (mem cmd [0x16]) eqn:E3;
      [apply mem_In in E3; exfalso; apply H; cbn [In] in *; tauto|].
    reflexivity.
Qed.

(** C2, as amended.  After the transport write [_write_data] sleeps 200 ms
    for set-media (0x09), 1000 ms for reset (0x0C), 500 ms for the file-count
    queries (0x47, 0x48, 0x49, 0x4E), not at all for the play commands (0x03,
    0x0D, 0x0F, 0x12), advert-play (0x13) and stop (0x16), and the
    construction-time latency for every other command, advert-stop (0x15)
    among them; the latency itself is left as it was. *)
Theorem settle_delay_exact (cmd dataL dataH : Z) (s s' : DFPlayer) :
  _write_data cmd dataL dataH s = (Ok tt, s') ->
  (cmd = 0x09 -> slept s' - slept s = 200)
  /\ (cmd = 0x0C -> slept s' - slept s = 1000)
  /\ (In cmd [0x47; 0x48; 0x49; 0x4E] -> slept s' - slept s = 500)
  /\ (In cmd [0x03; 0x0D; 0x0F; 0x12; 0x13; 0x16] -> slept s' - slept s = 0)
  /\ (~ In cmd [0x09; 0x0C; 0x47; 0x48; 0x49; 0x4E;
                0x03; 0x0D; 0x0F; 0x12; 0x13; 0x16] ->
      slept s' - slept s = _latency s)
  /\ (cmd = 0x15 -> slept s' - slept s = _latency s)
  /\ _latency s' = _latency s.
Proof.
  unfold _write_data, sleep.
  destruct (Bytes.of_list (frame_ints cmd dataL dataH)) as [frame|];
    [|discriminate].
  destruct (settle_delay (_latency s) cmd <? 0); [discriminate|].
  intros [= <-]. cbn [slept _latency].
  replace (slept s + settle_delay (_latency s) cmd - slept s)
    with (settle_delay (_latency s) cmd) by lia.
  destruct (settle_delay_table (_latency s) cmd) as (H1 & H2 & H3 & H4 & H5).
  repeat split; try assumption.
  intros ->. reflexivity.
Qed.

(** The delay at work: advert-stop on a driver built with the default
    latency sleeps 100 ms. *)
Lemma settle_delay_exact_witness :
  _write_data 0x15 0 0 Sim.idle
  = (Ok tt, snd (_write_data 0x15 0 0 Sim.idle))
  /\ ((0x15 = 0x09 ->
       slept (snd (_write_data 0x15 0 0 Sim.idle)) - slept Sim.idle = 200)
      /\ (0x15 = 0x0C ->
          slept (snd (_write_data 0x15 0 0 Sim.idle)) - slept Sim.idle = 1000)
      /\ (In 0x15 [0x47; 0x48; 0x49; 0x4E] ->
          slept (snd (_write_data 0x15 0 0 Sim.idle)) - slept Sim.idle = 500)
      /\ (In 0x15 [0x03; 0x0D; 0x0F; 0x12; 0x13; 0x16] ->
          slept (snd (_write_data 0x15 0 0 Sim.idle)) - slept Sim.idle = 0)
      /\ (~ In 0x15 [0x09; 0x0C; 0x47; 0x48; 0x49; 0x4E;
                     0x03; 0x0D; 0x0F; 0x12; 0x13; 0x16] ->
          slept (snd (_write_data 0x15 0 0 Sim.idle)) - slept Sim.idle
          = _latency Sim.idle)
      /\ (0x15 = 0x15 ->
          slept (snd (_write_data 0x15 0 0 Sim.idle)) - slept Sim.idle
          = _latency Sim.idle)
      /\ _latency (snd (_write_data 0x15 0 0 Sim.idle)) = _latency Sim.idle).
Proof.
  split; [reflexivity|].
  apply (settle_delay_exact 0x15 0 0 Sim.idle). reflexivity.
Defined.

(** C2, as stated, fails for advert-stop: [stop_advert] is followed by the
    latency (100 ms by default), not by 0 ms. *)
Lemma stop_advert_is_delayed :
  fst (stop_advert Sim.idle) = Ok tt
  /\ slept (snd (stop_advert Sim.idle)) - slept Sim.idle = 100
  /\ ~ (forall s s', stop_advert s = (Ok tt, s') -> slept s' - slept s = 0).
Proof.
  split; [reflexivity|]. split; [reflexivity|].
  intros H. specialize (H Sim.idle _ eq_refl). discriminate H.
Qed.

(** ** Volume scaling (C8) and silent normalisation (C9) *)

(** A property checked on every integer below a bound. *)
Lemma forall_below (P : Z -> bool) (n : nat) :
  forallb (fun k => P (Z.of_nat k)) (seq 0 n) = true ->
  forall z, 0 <= z < Z.of_nat n -> P z = true.
Proof.
  intros H z Hz. rewrite forallb_forall in H.
  specialize (H (Z.to_nat z)). rewrite Z2Nat.id in H by lia.
  apply H. apply in_seq. lia.
Qed.

(** On a percentage the float computation of [set_volume] is the integer
    quotient. *)
Lemma volume_raw_of_pct_exact (percent : Z) :
  0 <= percent <= 100 -> volume_raw_of_pct percent = percent * 30 / 100.
Proof.
  intros H. apply Z.eqb_eq.
  apply (forall_below (fun p => volume_raw_of_pct p =? p * 30 / 100) 101);
    [vm_compute; reflexivity | lia].
Qed.

(** The float computation of [get_volume] is the integer quotient up to raw
    value 68; at 69 the product [2.3 * 100] rounds below 230. *)
Lemma volume_pct_of_raw_exact (raw : Z) :
  0 <= raw <= 68 -> volume_pct_of_raw raw = raw * 100 / 30.
Proof.
  intros H. apply Z.eqb_eq.
  apply (forall_below (fun r => volume_pct_of_raw r =? r * 100 / 30) 69);
    [vm_compute; reflexivity | lia].
Qed.

Lemma clamp_range (percent : Z) : 0 <= Z.max 0 (Z.min 100 percent) <= 100.
Proof. lia. Qed.

(** The outcomes of a [_write_data] whose three arguments are bytes: the
    frame is written; the call returns unless the latency is slept and is
    negative. *)
Lemma write_data_byte_args (cmd dataL dataH : Z) (c l h : byte) (s : DFPlayer) :
  Bytes.to_Z c = cmd -> Bytes.to_Z l = dataL -> Bytes.to_Z h = dataH ->
  UART.tx (_uart (snd (_write_data cmd dataL dataH s)))
  = UART.tx (_uart s) ++ [[x7e; xff; x06; c; x00; h; l; xef]]
  /\ (0 <= settle_delay (_latency s) cmd ->
      _write_data cmd dataL dataH s
      = (Ok tt,
         mkDFPlayer (UART.write [x7e; xff; x06; c; x00; h; l; xef] (_uart s))
                    (_latency s) (_media s)
                    (slept s + settle_delay (_latency s) cmd)))
  /\ (forall e s', _write_data cmd dataL dataH s = (Raise e, s') ->
        e = ValueError_sleep /\ _latency s < 0).
Proof.
  intros Vc Vl Vh.
  assert (Hf : Bytes.of_list (frame_ints cmd dataL dataH)
               = Some [x7e; xff; x06; c; x00; h; l; xef])
    by (apply frame_bytes; now apply of_Z_literal).
  split; [now rewrite (write_data_written _ _ _ _ s Hf)|].
  split; [now apply write_data_ok|].
  intros e s' H.
  destruct (Z_lt_le_dec (settle_delay (_latency s) cmd) 0) as [Hd|Hd].
  - rewrite (write_data_sleep_error _ _ _ _ s Hf Hd) in H.
    injection H as <- _. split; [reflexivity|].
    now rewrite <- (settle_delay_neg _ _ Hd).
  - rewrite (write_data_ok _ _ _ _ s Hf Hd) in H. discriminate.
Qed.

(** [set_volume] sends command 0x06 with the scaled value of the clamped
    percentage in the low data byte; it returns unless the latency is
    negative, and no percentage makes it raise. *)
Lemma set_volume_sends (percent : Z) (s : DFPlayer) :
  exists v,
    Bytes.to_Z v = Z.max 0 (Z.min 100 percent) * 30 / 100
    /\ UART.tx (_uart (snd (set_volume percent s)))
       = UART.tx (_uart s) ++ [[x7e; xff; x06; x06; x00; x00; v; xef]]
    /\ (0 <= _latency s ->
        set_volume percent s
        = (Ok tt,
           mkDFPlayer (UART.write [x7e; xff; x06; x06; x00; x00; v; xef] (_uart s))
                      (_latency s) (_media s) (slept s + _latency s)))
    /\ (forall e s', set_volume percent s = (Raise e, s') ->
          e = ValueError_sleep /\ _latency s < 0).
Proof.
  unfold set_volume.
  rewrite (volume_raw_of_pct_exact _ (clamp_range percent)).
  set (raw := Z.max 0 (Z.min 100 percent) * 30 / 100).
  assert (Hraw : 0 <= raw <= 255).
  { subst raw. pose proof (clamp_range percent). Z.div_mod_to_equations. lia. }
  destruct (of_Z_in_range raw Hraw) as (v & _ & Vv).
  destruct (write_data_byte_args 0x06 raw 0 x06 v x00 s eq_refl Vv eq_refl)
    as (Ht & Hok & Hr).
  exists v. split; [exact Vv|]. split; [exact Ht|]. split; [|exact Hr].
  intros H0. apply Hok. cbn. exact H0.
Qed.

(** [set_eq] sends command 0x07 with the preset, or 0 when the preset is
    outside 0-5; it returns unless the latency is negative, and no preset
    makes it raise. *)
Lemma set_eq_sends (eq : Z) (s : DFPlayer) :
  exists e,
    Bytes.to_Z e = (if (eq <? 0) || (eq >? 5) then 0 else eq)
    /\ UART.tx (_uart (snd (set_eq eq s)))
       = UART.tx (_uart s) ++ [[x7e; xff; x06; x07; x00; x00; e; xef]]
    /\ (0 <= _latency s ->
        set_eq eq s
        = (Ok tt,
           mkDFPlayer (UART.write [x7e; xff; x06; x07; x00; x00; e; xef] (_uart s))
                      (_latency s) (_media s) (slept s + _latency s)))
    /\ (forall x s', set_eq eq s = (Raise x, s') ->
          x = ValueError_sleep /\ _latency s < 0).
Proof.
  unfold set_eq.
  set (p := if (eq <? 0) || (eq >? 5) then 0 else eq).
  assert (Hp : 0 <= p <= 255).
  { subst p. destruct (Z.ltb_spec eq 0), (Z.gtb_spec eq 5); cbn [orb]; lia. }
  destruct (of_Z_in_range p Hp) as (e & _ & Ve).
  destruct (write_data_byte_args 0x07 p 0 x07 e x00 s eq_refl Ve eq_refl)
    as (Ht & Hok & Hr).
  exists e. split; [exact Ve|]. split; [exact Ht|]. split; [|exact Hr].
  intros H0. apply Hok. cbn. exact H0.
Qed.

(** C8.  For a percentage in [0,100], [set_volume] sends the device value
    [percent * 30 / 100] (integer quotient); and for a raw value of the
    device's volume range, 0 to [MAX_VOLUME], a volume query answered with
    that value returns [raw * 100 / 30]. *)
Theorem volume_scaling (percent raw : Z) (s t t1 t2 : DFPlayer) :
  0 <= percent <= 100 -> 0 <= raw <= MAX_VOLUME ->
  _write_data 0x43 0 0 t = (Ok tt, t1) ->
  _read_response t1 = (Ok (Some (0x43, raw)), t2) ->
  (exists v,
      Bytes.to_Z v = percent * 30 / 100
      /\ UART.tx (_uart (snd (set_volume percent s)))
         = UART.tx (_uart s) ++ [[x7e; xff; x06; x06; x00; x00; v; xef]])
  /\ get_volume t = (Ok (raw * 100 / 30), t2).
Proof.
  intros Hp Hr Hw Hrd. split.
  - destruct (set_volume_sends percent s) as (v & Vv & Tv & _).
    exists v. split; [|exact Tv].
    rewrite Vv. f_equal. f_equal. lia.
  - unfold get_volume.
    rewrite (bind_ok _ _ _ _ _ Hw), (bind_ok _ _ _ _ _ Hrd).
    unfold ret. cbn [Z.eqb Pos.eqb].
    unfold MAX_VOLUME in Hr.
    now rewrite (volume_pct_of_raw_exact raw) by lia.
Qed.

(** Half volume and the reply 15: the device value for 50 percent is 15, and
    a device that answers the volume query with 15 makes [get_volume]
    return 50. *)
Lemma volume_scaling_witness :
  0 <= 50 <= 100 /\ 0 <= 15 <= MAX_VOLUME
  /\ _write_data 0x43 0 0 (Sim.answering (Sim.reply x43 x00 x0f))
     = (Ok tt, snd (_write_data 0x43 0 0 (Sim.answering (Sim.reply x43 x00 x0f))))
  /\ _read_response
       (snd (_write_data 0x43 0 0 (Sim.answering (Sim.reply x43 x00 x0f))))
     = (Ok (Some (0x43, 15)),
        snd (get_volume (Sim.answering (Sim.reply x43 x00 x0f))))
  /\ (exists v,
         Bytes.to_Z v = 50 * 30 / 100
         /\ UART.tx (_uart (snd (set_volume 50 Sim.idle)))
            = UART.tx (_uart Sim.idle) ++ [[x7e; xff; x06; x06; x00; x00; v; xef]])
  /\ get_volume (Sim.answering (Sim.reply x43 x00 x0f))
     = (Ok (15 * 100 / 30),
        snd (get_volume (Sim.answering (Sim.reply x43 x00 x0f)))).
Proof.
  split; [lia|]. split; [unfold MAX_VOLUME; lia|].
  split; [reflexivity|]. split; [reflexivity|].
  eapply (volume_scaling 50 15 Sim.idle (Sim.answering (Sim.reply x43 x00 x0f)));
    [lia | unfold MAX_VOLUME; lia | reflexivity | reflexivity].
Defined.

(** A device that answers the volume query with raw value 15. *)
Lemma get_volume_15 :
  fst (get_volume (mkDFPlayer (Sim.device [Sim.reply x43 x00 x0f]) 100 2 0))
  = Ok 50.
Proof. vm_compute. reflexivity. Qed.

(** Beyond the device's range the float computation can fall one below the
    integer quotient: a data word of 69 reads back as 229, and
    [69 * 100 / 30] is 230. *)
Lemma get_volume_raw_69 :
  decode (Sim.reply x43 x00 x45) = Some (0x43, 69)
  /\ fst (get_volume (mkDFPlayer (Sim.device [Sim.reply x43 x00 x45]) 100 2 0))
     = Ok 229
  /\ 69 * 100 / 30 = 230.
Proof. repeat split; vm_compute; reflexivity. Qed.

(** C9.  Out-of-range input is normalised, never an error: a percentage
    above 100 is sent as 100 and one below 0 as 0; an equaliser preset
    outside 0-5 is sent as 0; the frame is written for every input; and no
    input makes either call raise: both return whenever the latency is not
    negative, and the only exception either can raise is that of a negative
    sleep. *)
Theorem silent_normalization (percent eq : Z) (s : DFPlayer) :
  (100 < percent -> set_volume percent s = set_volume 100 s)
  /\ (percent < 0 -> set_volume percent s = set_volume 0 s)
  /\ (~ (0 <= eq <= 5) -> set_eq eq s = set_eq 0 s)
  /\ (exists v,
         Bytes.to_Z v = Z.max 0 (Z.min 100 percent) * 30 / 100
         /\ UART.tx (_uart (snd (set_volume percent s)))
            = UART.tx (_uart s) ++ [[x7e; xff; x06; x06; x00; x00; v; xef]])
  /\ (exists e,
         Bytes.to_Z e = (if (eq <? 0) || (eq >? 5) then 0 else eq)
         /\ UART.tx (_uart (snd (set_eq eq s)))
            = UART.tx (_uart s) ++ [[x7e; xff; x06; x07; x00; x00; e; xef]])
  /\ (0 <= _latency s ->
      fst (set_volume percent s) = Ok tt /\ fst (set_eq eq s) = Ok tt)
  /\ (forall x s', set_volume percent s = (Raise x, s') ->
        x = ValueError_sleep /\ _latency s < 0)
  /\ (forall x s', set_eq eq s = (Raise x, s') ->
        x = ValueError_sleep /\ _latency s < 0).
Proof.
  destruct (set_volume_sends percent s) as (v & Vv & Tv & Hv & Rv).
  destruct (set_eq_sends eq s) as (e & Ve & Te & He & Re).
  split; [|split; [|split; [|split; [|split; [|split; [|split]]]]]].
  - intros H. unfold set_volume.
    replace (Z.max 0 (Z.min 100 percent)) with 100 by lia. reflexivity.
  - intros H. unfold set_volume.
    replace (Z.max 0 (Z.min 100 percent)) with 0 by lia. reflexivity.
  - intros H. unfold set_eq.
    destruct (Z.ltb_spec eq 0), (Z.gtb_spec eq 5); cbn [orb]; try reflexivity.
    lia.
  - exists v. now split.
  - exists e. now split.
  - intros H0. rewrite (Hv H0), (He H0). now split.
  - exact Rv.
  - exact Re.
Qed.

(** Out-of-range volume and preset on a driver with the default latency:
    both calls return. *)
Lemma silent_normalization_witness :
  0 <= _latency Sim.idle
  /\ fst (set_volume 150 Sim.idle) = Ok tt /\ fst (set_eq 9 Sim.idle) = Ok tt.
Proof.
  assert (H : 0 <= _latency Sim.idle) by (vm_compute; discriminate).
  split; [exact H|].
  exact (proj1 (proj2 (proj2 (proj2 (proj2 (proj2
           (silent_normalization 150 9 Sim.idle)))))) H).
Defined.

(** [set_volume(150)] and [set_eq(9)] on the idle driver. *)
Lemma normalization_examples :
  set_volume 150 Sim.idle = set_volume 100 Sim.idle
  /\ UART.tx (_uart (snd (set_volume 150 Sim.idle)))
     = [[x7e; xff; x06; x06; x00; x00; x1e; xef]]
  /\ set_eq 9 Sim.idle = set_eq 0 Sim.idle
  /\ UART.tx (_uart (snd (set_eq 9 Sim.idle)))
     = [[x7e; xff; x06; x07; x00; x00; x00; xef]].
Proof. repeat split; vm_compute; reflexivity. Qed.

(** ** Advert tracks (C6) *)

Lemma track_bytes (track : Z) :
  1 <= track <= 9999 -> 0 <= track mod 256 <= 255 /\ 0 <= track / 256 <= 255.
Proof.
  intros H. split.
  - pose proof (Z.mod_pos_bound track 256). lia.
  - split; [apply Z.div_pos; lia|].
    apply Z.lt_succ_r. apply Z.div_lt_upper_bound; lia.
Qed.

(** C6.  [play_advert] raises exactly when the track is outside [1, 9999],
    and then nothing was written (the object is as it was); for a track in
    range it sends command 0x13 with [track mod 256] in the low data byte and
    [track / 256] in the high one: (1, 0) for track 1 and (0x0F, 0x27) for
    track 9999. *)
Theorem play_advert_range (track : Z) (s : DFPlayer) :
  ((exists e, fst (play_advert track s) = Raise e) <-> ~ (1 <= track <= 9999))
  /\ (~ (1 <= track <= 9999) ->
      play_advert track s = (Raise ValueError_track, s))
  /\ (1 <= track <= 9999 ->
      exists lo hi s',
        play_advert track s = (Ok tt, s')
        /\ Bytes.to_Z lo = track mod 256 /\ Bytes.to_Z hi = track / 256
        /\ UART.tx (_uart s')
           = UART.tx (_uart s) ++ [[x7e; xff; x06; x13; x00; hi; lo; xef]])
  /\ UART.tx (_uart (snd (play_advert 1 s)))
     = UART.tx (_uart s) ++ [[x7e; xff; x06; x13; x00; x00; x01; xef]]
  /\ UART.tx (_uart (snd (play_advert 9999 s)))
     = UART.tx (_uart s) ++ [[x7e; xff; x06; x13; x00; x27; x0f; xef]].
Proof.
  assert (Hout : ~ (1 <= track <= 9999) ->
                 play_advert track s = (Raise ValueError_track, s)).
  { intros H. unfold play_advert.
    destruct (Z.leb_spec 1 track), (Z.leb_spec track 9999);
      cbn [andb negb]; try reflexivity. lia. }
  assert (Hin : 1 <= track <= 9999 ->
      exists lo hi s',
        play_advert track s = (Ok tt, s')
        /\ Bytes.to_Z lo = track mod 256 /\ Bytes.to_Z hi = track / 256
        /\ UART.tx (_uart s')
           = UART.tx (_uart s) ++ [[x7e; xff; x06; x13; x00; hi; lo; xef]]).
  { intros H. unfold play_advert.
    destruct (Z.leb_spec 1 track), (Z.leb_spec track 9999); try lia.
    cbn [andb negb].
    destruct (track_bytes track H) as (Hlo & Hhi).
    destruct (of_Z_in_range _ Hlo) as (lo & Elo & Vlo).
    destruct (of_Z_in_range _ Hhi) as (hi & Ehi & Vhi).
    eexists lo, hi, _.
    split; [apply write_data_ok;
            [apply frame_bytes; [reflexivity | exact Elo | exact Ehi]
            | cbn; lia]|].
    repeat split; assumption || reflexivity. }
  split; [|split; [exact Hout | split; [exact Hin | split; reflexivity]]].
  split.
  - intros (e & He) Hr. destruct (Hin Hr) as (lo & hi & s' & E & _).
    rewrite E in He. discriminate.
  - intros H. exists ValueError_track. now rewrite (Hout H).
Qed.

(** The two tracks next to the range, on the idle driver. *)
Lemma play_advert_rejected :
  play_advert 0 Sim.idle = (Raise ValueError_track, Sim.idle)
  /\ play_advert 10000 Sim.idle = (Raise ValueError_track, Sim.idle).
Proof. split; reflexivity. Qed.

(** ** Queries (C7) *)

Lemma read_response_ok (s : DFPlayer) :
  exists r s', _read_response s = (Ok r, s').
Proof.
  destruct (read_response_total s) as (r & s' & H & _). now exists r, s'.
Qed.

(** Every query method has the shape written in its three lines. *)
Lemma query_answers {A} (cmd dataL : Z) (present : Z -> A) (absent : A)
    (s : DFPlayer) :
  0 <= cmd <= 255 -> 0 <= dataL <= 255 ->
  0 <= settle_delay (_latency s) cmd ->
  answers (_write_data cmd dataL 0 ;;
           r <- _read_response ;;
           ret match r with
               | Some (c, d) => if c =? cmd then present d else absent
               | None => absent
               end)
          cmd dataL present absent s.
Proof.
  intros Hc Hl Hd.
  destruct (of_Z_in_range _ Hc) as (c & Ec & _).
  destruct (of_Z_in_range _ Hl) as (l & El & _).
  pose proof (write_data_ok cmd dataL 0 _ s
                (frame_bytes cmd dataL 0 c l x00 Ec El eq_refl) Hd) as Hw.
  set (s1 := mkDFPlayer _ _ _ _) in Hw.
  destruct (read_response_ok s1) as (r & s2 & Hr).
  exists s1, r, s2. split; [exact Hw|]. split; [exact Hr|].
  eexists. split.
  - unfold bind, ret. rewrite Hw, Hr. reflexivity.
  - split.
    + intros d ->. now rewrite Z.eqb_refl.
    + intros Hn. destruct r as [[c' d]|]; [|reflexivity].
      destruct (Z.eqb_spec c' cmd) as [->|_]; [|reflexivity].
      now destruct (Hn d).
Qed.

(** C7.  Each query returns the data of the drained frame only when that
    frame echoes the command the query has just sent (for the volume, the
    data rescaled to a percentage); with no frame drained, or another
    command echoed, it returns [None] (status, mode, version, current file)
    or 0 (volume, equaliser, file counts).  The queries that sleep the
    latency get as far as the drain when the latency is not negative. *)
Theorem queries_match_echo (s : DFPlayer) :
  (0 <= _latency s ->
   answers get_status 0x42 0 Some None s
   /\ answers get_mode 0x45 0 Some None s
   /\ answers get_version 0x46 0 Some None s
   /\ answers current_file 0x4C 0 Some None s
   /\ answers get_volume 0x43 0 volume_pct_of_raw 0 s
   /\ answers get_eq 0x44 0 (fun d => d) 0 s)
  /\ (forall folder media, 0 <= folder <= 255 ->
        answers (num_files (Some folder) media) 0x4E folder (fun d => d) 0 s)
  /\ answers (num_files None (Some MEDIA_U_DISK)) 0x47 0 (fun d => d) 0 s
  /\ answers (num_files None (Some MEDIA_SD)) 0x48 0 (fun d => d) 0 s
  /\ answers (num_files None (Some MEDIA_FLASH)) 0x49 0 (fun d => d) 0 s.
Proof.
  split; [intros H0; repeat split; apply (query_answers _ 0); cbn; lia|].
  split; [intros folder media Hf; apply (query_answers 0x4E folder); cbn; lia|].
  repeat split; apply (query_answers _ 0); cbn; lia.
Qed.

(** The six queries on a driver with the default latency whose device
    answers with a status frame. *)
Lemma queries_match_echo_witness :
  0 <= _latency (Sim.answering Sim.status_stopped)
  /\ answers get_status 0x42 0 Some None (Sim.answering Sim.status_stopped)
  /\ answers get_mode 0x45 0 Some None (Sim.answering Sim.status_stopped)
  /\ answers get_version 0x46 0 Some None (Sim.answering Sim.status_stopped)
  /\ answers current_file 0x4C 0 Some None (Sim.answering Sim.status_stopped)
  /\ answers get_volume 0x43 0 volume_pct_of_raw 0
       (Sim.answering Sim.status_stopped)
  /\ answers get_eq 0x44 0 (fun d => d) 0 (Sim.answering Sim.status_stopped).
Proof.
  assert (H : 0 <= _latency (Sim.answering Sim.status_stopped))
    by (vm_compute; discriminate).
  split; [exact H|].
  exact (proj1 (queries_match_echo (Sim.answering Sim.status_stopped)) H).
Defined.

(** A status query answered with the frame of another command: the data is
    not taken for the status. *)
Lemma get_status_foreign_frame :
  fst (get_status (mkDFPlayer (Sim.device [Sim.reply x43 x00 x0f]) 100 2 0))
  = Ok None
  /\ fst (get_status (mkDFPlayer (Sim.device [Sim.status_stopped]) 100 2 0))
     = Ok (Some 0x0200).
Proof. split; vm_compute; reflexivity. Qed.

(** ** File counts by media source (C10) *)

Lemma answers_ext {A} (q q' : M A) (cmd dataL : Z) (present : Z -> A)
    (absent : A) (s : DFPlayer) :
  q s = q' s ->
  answers q' cmd dataL present absent s -> answers q cmd dataL present absent s.
Proof.
  intros E (s1 & r & s2 & Hw & Hr & v & Hq & Hv).
  exists s1, r, s2. rewrite E. eauto.
Qed.

(** [num_files] without a folder, on the media source [m] it works with. *)
Lemma num_files_media (media : option Z) (m : Z) (s : DFPlayer) :
  or_else media (_media s) = m ->
  num_files None media s =
  match dict_get media_query_table m with
  | None => (Ok 0, s)
  | Some cmd =>
      (_write_data cmd 0 0 ;;
       r <- _read_response ;;
       ret match r with
           | Some (c, d) => if c =? cmd then d else 0
           | None => 0
           end) s
  end.
Proof.
  intros <-. unfold num_files.
  destruct (dict_get media_query_table (or_else media (_media s))) as [cmd|] eqn:E;
    [|reflexivity].
  destruct (Z.eqb_spec cmd 0) as [->|_]; [|reflexivity].
  exfalso. unfold media_query_table in E. cbn [dict_get] in E.
  repeat match type of E with
         | (if ?b then _ else _) = _ => destruct b; [discriminate|]
         end.
  discriminate.
Qed.

Lemma dict_get_other (m : Z) :
  m <> MEDIA_U_DISK -> m <> MEDIA_SD -> m <> MEDIA_FLASH ->
  dict_get media_query_table m = None.
Proof.
  intros H1 H2 H5. unfold media_query_table. cbn [dict_get].
  destruct (Z.eqb_spec MEDIA_U_DISK m); [congruence|].
  destruct (Z.eqb_spec MEDIA_SD m); [congruence|].
  destruct (Z.eqb_spec MEDIA_FLASH m); [congruence|].
  reflexivity.
Qed.

(** C10.  [num_files] without a folder works with the media source given as
    argument, or with the stored one when none is given.  USB disk, SD card
    and flash are queried with 0x47, 0x48 and 0x49; for AUX and sleep, as for
    every value with no query command, the call returns 0 and the object,
    transport included, is as it was. *)
Theorem num_files_by_media (media : option Z) (m : Z) (s : DFPlayer) :
  (media = Some m /\ m <> 0) \/ (media = None /\ m = _media s) ->
  (m = MEDIA_U_DISK -> answers (num_files None media) 0x47 0 (fun d => d) 0 s)
  /\ (m = MEDIA_SD -> answers (num_files None media) 0x48 0 (fun d => d) 0 s)
  /\ (m = MEDIA_FLASH -> answers (num_files None media) 0x49 0 (fun d => d) 0 s)
  /\ (m = MEDIA_AUX \/ m = MEDIA_SLEEP -> num_files None media s = (Ok 0, s))
  /\ (m <> MEDIA_U_DISK -> m <> MEDIA_SD -> m <> MEDIA_FLASH ->
      num_files None media s = (Ok 0, s)).
Proof.
  intros Hm.
  assert (E : or_else media (_media s) = m).
  { destruct Hm as [[-> Hnz]|[-> ->]]; [|reflexivity].
    unfold or_else. destruct (Z.eqb_spec m 0); [contradiction | reflexivity]. }
  pose proof (num_files_media media m s E) as Hnf.
  assert (Hother : m <> MEDIA_U_DISK -> m <> MEDIA_SD -> m <> MEDIA_FLASH ->
                   num_files None media s = (Ok 0, s)).
  { intros H1 H2 H5. now rewrite Hnf, dict_get_other. }
  repeat split.
  - intros ->. eapply answers_ext; [exact Hnf|]. apply (query_answers 0x47 0); cbn; lia.
  - intros ->. eapply answers_ext; [exact Hnf|]. apply (query_answers 0x48 0); cbn; lia.
  - intros ->. eapply answers_ext; [exact Hnf|]. apply (query_answers 0x49 0); cbn; lia.
  - intros [-> | ->]; apply Hother; discriminate.
  - exact Hother.
Qed.

(** The AUX input given as argument to a driver set to the SD card: no
    query, no write. *)
Lemma num_files_by_media_witness :
  ((Some MEDIA_AUX = Some MEDIA_AUX /\ MEDIA_AUX <> 0)
   \/ (Some MEDIA_AUX = None /\ MEDIA_AUX = _media Sim.idle))
  /\ (MEDIA_AUX = MEDIA_U_DISK ->
      answers (num_files None (Some MEDIA_AUX)) 0x47 0 (fun d => d) 0 Sim.idle)
  /\ (MEDIA_AUX = MEDIA_SD ->
      answers (num_files None (Some MEDIA_AUX)) 0x48 0 (fun d => d) 0 Sim.idle)
  /\ (MEDIA_AUX = MEDIA_FLASH ->
      answers (num_files None (Some MEDIA_AUX)) 0x49 0 (fun d => d) 0 Sim.idle)
  /\ (MEDIA_AUX = MEDIA_AUX \/ MEDIA_AUX = MEDIA_SLEEP ->
      num_files None (Some MEDIA_AUX) Sim.idle = (Ok 0, Sim.idle))
  /\ (MEDIA_AUX <> MEDIA_U_DISK -> MEDIA_AUX <> MEDIA_SD ->
      MEDIA_AUX <> MEDIA_FLASH ->
      num_files None (Some MEDIA_AUX) Sim.idle = (Ok 0, Sim.idle)).
Proof.
  assert (H : (Some MEDIA_AUX = Some MEDIA_AUX /\ MEDIA_AUX <> 0)
              \/ (Some MEDIA_AUX = None /\ MEDIA_AUX = _media Sim.idle)).
  { left. split; [reflexivity | discriminate]. }
  split; [exact H|].
  apply (num_files_by_media (Some MEDIA_AUX) MEDIA_AUX Sim.idle H).
Defined.

(** The stored media source is used when no argument is given: a driver set
    to the SD card sends 0x48, one set to AUX sends nothing. *)
Lemma num_files_stored_media :
  UART.tx (_uart (snd (num_files None None Sim.idle)))
  = [[x7e; xff; x06; x48; x00; x00; x00; xef]]
  /\ num_files None None (mkDFPlayer Sim.silent 100 MEDIA_AUX 0)
     = (Ok 0, mkDFPlayer Sim.silent 100 MEDIA_AUX 0).
Proof. split; vm_compute; reflexivity. Qed.

(** ** Reads and writes leave the latency alone *)

Lemma write_data_latency (cmd dataL dataH : Z) (s : DFPlayer) :
  _latency (snd (_write_data cmd dataL dataH s)) = _latency s.
Proof.
  unfold _write_data, sleep. destruct (Bytes.of_list _); [|reflexivity].
  now destruct (_ <? 0).
Qed.

Lemma poll_latency (fuel : nat) :
  forall res s out, poll fuel res s = Some out -> _latency (snd out) = _latency s.
Proof.
  induction fuel as [|fuel IH]; intros res s out H; [discriminate|].
  cbn [poll] in H. unfold _read_data in H.
  destruct (UART.in_waiting (_uart s) =? 0).
  - injection H as <-. reflexivity.
  - cbn [UART.read] in H. destruct (decode _).
    + now rewrite (IH _ _ _ H).
    + injection H as <-. reflexivity.
Qed.

Lemma read_response_latency (s : DFPlayer) :
  _latency (snd (_read_response s)) = _latency s.
Proof.
  destruct (read_response_total s) as (r & s' & H & Hp).
  rewrite H. apply (poll_latency _ _ _ _ Hp).
Qed.

(** ** Construction (C3) *)



Lemma init_succeeds :
  fst (__init__ (Sim.device [[]; Sim.status_stopped]) MEDIA_SD 50 0 100) = Ok tt
  /\ UART.tx (_uart (snd (__init__ (Sim.device [[]; Sim.status_stopped])
                             MEDIA_SD 50 0 100)))
     = [[x7e; xff; x06; x09; x00; x00; x02; xef];
        [x7e; xff; x06; x42; x00; x00; x00; xef];
        [x7e; xff; x06; x06; x00; x00; x0f; xef];
        [x7e; xff; x06; x07; x00; x00; x00; xef]].
Proof. split; vm_compute; reflexivity. Qed.

(** A device that never answers: construction raises. *)
Lemma init_fails_on_silence :
  fst (__init__ Sim.silent MEDIA_SD 50 0 100) = Raise Exception_init.
Proof. vm_compute. reflexivity. Qed.


(** The truth test on the status also takes a status of 0 for "no answer":
    a valid status frame with data 0 makes construction raise. *)
Lemma init_fails_on_zero_status :
  fst (get_status
         (snd (set_media MEDIA_SD
                 (mkDFPlayer (Sim.device [[]; Sim.reply x42 x00 x00]) 100 0 0))))
  = Ok (Some 0)
  /\ fst (__init__ (Sim.device [[]; Sim.reply x42 x00 x00]) MEDIA_SD 50 0 100)
     = Raise Exception_init.
Proof. split; vm_compute; reflexivity. Qed.

(** ** The latency is fixed at construction *)

(** No command sent through [_write_data] and no read changes the latency:
    it is the one given to the constructor. *)
Lemma init_latency (uart : UART.t) (media volume_pct eq latency : Z) :
  _latency (snd (__init__ uart media volume_pct eq latency)) = latency.
Proof.
  unfold __init__, set_media, get_status, set_volume, set_eq.
  unfold bind, ret, raise.
  repeat match goal with
         | |- context [_write_data ?c ?l ?h ?s] =>
             let H := fresh "Hw" in
             pose proof (write_data_latency c l h s) as H;
             destruct (_write_data c l h s) as [[[]|?] ?]; cbn [snd] in H |- *
         | |- context [_read_response ?s] =>
             let H := fresh "Hr" in
             pose proof (read_response_latency s) as H;
             destruct (_read_response s) as [[?|?] ?]; cbn [snd] in H |- *
         | |- context [if falsy ?x then _ else _] => destruct (falsy x)
         end;
    cbn [_latency snd] in *; congruence.
Qed.

(** * Further properties of the driver *)

(** ** [_write_data]: errors and frame layout *)


(** The three outcomes of [_write_data]. *)
Lemma write_data_cases (cmd dataL dataH : Z) (s : DFPlayer) :
  (~ (0 <= cmd <= 255 /\ 0 <= dataL <= 255 /\ 0 <= dataH <= 255)
   /\ _write_data cmd dataL dataH s = (Raise ValueError_bytes, s))
  \/ (exists c l h,
         Bytes.to_Z c = cmd /\ Bytes.to_Z l = dataL /\ Bytes.to_Z h = dataH
         /\ settle_delay (_latency s) cmd < 0
         /\ _write_data cmd dataL dataH s
            = (Raise ValueError_sleep,
               mkDFPlayer (UART.write [x7e; xff; x06; c; x00; h; l; xef] (_uart s))
                          (_latency s) (_media s) (slept s)))
  \/ (exists c l h,
         Bytes.to_Z c = cmd /\ Bytes.to_Z l = dataL /\ Bytes.to_Z h = dataH
         /\ 0 <= settle_delay (_latency s) cmd
         /\ _write_data cmd dataL dataH s
            = (Ok tt,
               mkDFPlayer (UART.write [x7e; xff; x06; c; x00; h; l; xef] (_uart s))
                          (_latency s) (_media s)
                          (slept s + settle_delay (_latency s) cmd))).
Proof.
  destruct (Bytes.of_list (frame_ints cmd dataL dataH)) as [frame|] eqn:E.
  - right.
    assert (Hr : 0 <= cmd <= 255 /\ 0 <= dataL <= 255 /\ 0 <= dataH <= 255).
    { destruct (Z_le_dec 0 cmd), (Z_le_dec cmd 255), (Z_le_dec 0 dataL),
        (Z_le_dec dataL 255), (Z_le_dec 0 dataH), (Z_le_dec dataH 255);
        try (repeat split; assumption);
        exfalso; assert (Hn : Bytes.of_list (frame_ints cmd dataL dataH) = None)
          by (apply frame_rejected; lia); congruence. }
    destruct Hr as (Hc & Hl & Hh).
    destruct (of_Z_in_range _ Hc) as (c & Ec & Vc).
    destruct (of_Z_in_range _ Hl) as (l & El & Vl).
    destruct (of_Z_in_range _ Hh) as (h & Eh & Vh).
    pose proof (frame_bytes _ _ _ _ _ _ Ec El Eh) as Hf.
    destruct (Z_lt_le_dec (settle_delay (_latency s) cmd) 0) as [Hd|Hd].
    + left. exists c, l, h. repeat split; try assumption.
      now apply write_data_sleep_error.
    + right. exists c, l, h. repeat split; try assumption.
      now apply write_data_ok.
  - left. split; [now apply frame_rejected|].
    unfold _write_data. now rewrite E.
Qed.

(** For a command whose sleep is not negative only two outcomes are left. *)
Lemma write_data_cases2 (cmd dataL dataH : Z) (s : DFPlayer) :
  0 <= settle_delay (_latency s) cmd ->
  (~ (0 <= cmd <= 255 /\ 0 <= dataL <= 255 /\ 0 <= dataH <= 255)
   /\ _write_data cmd dataL dataH s = (Raise ValueError_bytes, s))
  \/ (exists c l h,
         Bytes.to_Z c = cmd /\ Bytes.to_Z l = dataL /\ Bytes.to_Z h = dataH
         /\ _write_data cmd dataL dataH s
            = (Ok tt,
               mkDFPlayer (UART.write [x7e; xff; x06; c; x00; h; l; xef] (_uart s))
                          (_latency s) (_media s)
                          (slept s + settle_delay (_latency s) cmd))).
Proof.
  intros Hd.
  destruct (write_data_cases cmd dataL dataH s)
    as [H|[(c & l & h & _ & _ & _ & Hd' & _)
          |(c & l & h & Vc & Vl & Vh & _ & E)]]; [now left | lia |].
  right. now exists c, l, h.
Qed.


(** X2.  A [_write_data] that returns has written exactly one frame: eight
    bytes, header 7E FF 06, the command in byte 3, feedback 0, the high data
    byte before the low one, stop byte EF.  The bytes ready to be read are
    still there, and the media source and the latency are untouched. *)
Theorem write_data_frame (cmd dataL dataH : Z) (s s' : DFPlayer) :
  _write_data cmd dataL dataH s = (Ok tt, s') ->
  exists frame,
    UART.tx (_uart s') = UART.tx (_uart s) ++ [frame]
    /\ is_command_frame frame = true
    /\ byte_at frame 3 = cmd /\ byte_at frame 5 = dataH /\ byte_at frame 6 = dataL
    /\ firstn (length (UART.rx (_uart s))) (UART.rx (_uart s')) = UART.rx (_uart s)
    /\ _media s' = _media s /\ _latency s' = _latency s
    /\ elapsed s s' = settle_delay (_latency s) cmd.
Proof.
  intros H.
  destruct (write_data_cases cmd dataL dataH s)
    as [(_ & E)|[(c & l & h & Vc & Vl & Vh & _ & E)
                |(c & l & h & Vc & Vl & Vh & _ & E)]]; rewrite E in H;
    try discriminate.
  injection H as <-.
  exists [x7e; xff; x06; c; x00; h; l; xef].
  unfold elapsed, byte_at. cbn [_uart UART.write UART.tx UART.rx _media _latency slept nth].
  repeat split; try assumption; try reflexivity.
  - apply firstn_frame. reflexivity.
  - lia.
Qed.

Lemma write_data_frame_witness :
  _write_data 0x0F 5 2 Sim.idle = (Ok tt, snd (_write_data 0x0F 5 2 Sim.idle))
  /\ exists frame,
      UART.tx (_uart (snd (_write_data 0x0F 5 2 Sim.idle)))
      = UART.tx (_uart Sim.idle) ++ [frame]
      /\ is_command_frame frame = true
      /\ byte_at frame 3 = 0x0F /\ byte_at frame 5 = 2 /\ byte_at frame 6 = 5
      /\ firstn (length (UART.rx (_uart Sim.idle)))
           (UART.rx (_uart (snd (_write_data 0x0F 5 2 Sim.idle))))
         = UART.rx (_uart Sim.idle)
      /\ _media (snd (_write_data 0x0F 5 2 Sim.idle)) = _media Sim.idle
      /\ _latency (snd (_write_data 0x0F 5 2 Sim.idle)) = _latency Sim.idle
      /\ elapsed Sim.idle (snd (_write_data 0x0F 5 2 Sim.idle))
         = settle_delay (_latency Sim.idle) 0x0F.
Proof.
  split; [reflexivity|].
  apply (write_data_frame 0x0F 5 2 Sim.idle). reflexivity.
Defined.

(** ** [play]: the four argument forms *)

(** X3.  [play(track=t)] raises, with nothing written, exactly when [t] is
    outside [0, 65535]; inside it sends command 0x03 with the track split
    over the two data bytes, the frame's big-endian data word being the
    track. *)
Theorem play_track_range (track : Z) (s : DFPlayer) :
  ((exists e s', play None (Some track) s = (Raise e, s'))
   <-> ~ (0 <= track <= 65535))
  /\ (forall e s', play None (Some track) s = (Raise e, s') ->
        e = ValueError_bytes /\ s' = s)
  /\ (0 <= track <= 65535 ->
      exists hi lo s',
        play None (Some track) s = (Ok tt, s')
        /\ UART.tx (_uart s')
           = UART.tx (_uart s) ++ [[x7e; xff; x06; x03; x00; hi; lo; xef]]
        /\ Bytes.unpack_be16 hi lo = track).
Proof.
  cbn [play].
  assert (Hiff : (0 <= 0x03 <= 255 /\ 0 <= track mod 256 <= 255
                  /\ 0 <= track / 256 <= 255) <-> 0 <= track <= 65535).
  { split; intros H; repeat split; try lia;
      Z.div_mod_to_equations; lia. }
  destruct (write_data_cases 0x03 (track mod 256) (track / 256) s)
    as [(Hn & E)|[(c & l & h & _ & _ & _ & Hd & _)
                 |(c & l & h & Vc & Vl & Vh & _ & E)]];
    [rewrite E | cbn in Hd; lia | rewrite E].
  - split; [|split].
    + split; [intros _; now rewrite <- Hiff | intros _; eauto].
    + intros e s' [= <- <-]. split; reflexivity.
    + intros Hr. now rewrite <- Hiff in Hr.
  - assert (Hr : 0 <= track <= 65535).
    { apply Hiff. pose proof (to_Z_range l). pose proof (to_Z_range h). lia. }
    split; [|split].
    + split; [intros (e & s' & H); discriminate | intros Hn; contradiction].
    + intros e s' H. discriminate.
    + intros _. exists h, l. eexists. split; [reflexivity|].
      assert (c = x03) as ->.
      { pose proof (of_Z_to_Z c) as Hc. rewrite Vc in Hc.
        cbn in Hc. congruence. }
      split; [reflexivity|].
      unfold Bytes.unpack_be16. rewrite Vl, Vh.
      Z.div_mod_to_equations. lia.
Qed.

(** A byte-sized argument goes into the frame as it is. *)
Lemma write_data_bytes (cmd dataL dataH : Z) (c l h : byte) (s : DFPlayer) :
  Bytes.to_Z c = cmd -> Bytes.to_Z l = dataL -> Bytes.to_Z h = dataH ->
  0 <= settle_delay (_latency s) cmd ->
  _write_data cmd dataL dataH s
  = (Ok tt,
     mkDFPlayer (UART.write [x7e; xff; x06; c; x00; h; l; xef] (_uart s))
                (_latency s) (_media s)
                (slept s + settle_delay (_latency s) cmd)).
Proof.
  intros Vc Vl Vh Hd. apply write_data_ok; [|exact Hd].
  apply frame_bytes; now apply of_Z_literal.
Qed.

(** X4.  For a folder and a track that fit a byte: [play(folder)] sends
    0x12 with the folder in the low data byte; [play(folder, track)] sends
    0x0F with the folder in the high byte and the track in the low one; and
    [play(track=folder * 256 + track)] sends the very same two data bytes
    under command 0x03, so the two forms differ in the command byte only. *)
Theorem play_folder_forms (folder track : Z) (s : DFPlayer) :
  0 <= folder <= 255 -> 0 <= track <= 255 ->
  exists f t s1 s2 s3,
    Bytes.to_Z f = folder /\ Bytes.to_Z t = track
    /\ play (Some folder) None s = (Ok tt, s1)
    /\ UART.tx (_uart s1)
       = UART.tx (_uart s) ++ [[x7e; xff; x06; x12; x00; x00; f; xef]]
    /\ play (Some folder) (Some track) s = (Ok tt, s2)
    /\ UART.tx (_uart s2)
       = UART.tx (_uart s) ++ [[x7e; xff; x06; x0f; x00; f; t; xef]]
    /\ play None (Some (folder * 256 + track)) s = (Ok tt, s3)
    /\ UART.tx (_uart s3)
       = UART.tx (_uart s) ++ [[x7e; xff; x06; x03; x00; f; t; xef]].
Proof.
  intros Hf Ht.
  destruct (of_Z_in_range _ Hf) as (f & _ & Vf).
  destruct (of_Z_in_range _ Ht) as (t & _ & Vt).
  exists f, t. do 3 eexists.
  split; [exact Vf|]. split; [exact Vt|]. cbn [play].
  split; [apply (write_data_bytes 0x12 folder 0 x12 f x00); auto; cbn; lia|].
  split; [reflexivity|].
  split; [apply (write_data_bytes 0x0F track folder x0f t f); auto; cbn; lia|].
  split; [reflexivity|].
  split; [apply (write_data_bytes 0x03 _ _ x03 t f);
          [reflexivity
          | rewrite ?Vt, ?Vf; Z.div_mod_to_equations; lia
          | rewrite ?Vt, ?Vf; Z.div_mod_to_equations; lia
          | cbn; lia]|].
  reflexivity.
Qed.

Lemma play_folder_forms_witness :
  0 <= 2 <= 255 /\ 0 <= 5 <= 255
  /\ exists f t s1 s2 s3,
      Bytes.to_Z f = 2 /\ Bytes.to_Z t = 5
      /\ play (Some 2) None Sim.idle = (Ok tt, s1)
      /\ UART.tx (_uart s1)
         = UART.tx (_uart Sim.idle) ++ [[x7e; xff; x06; x12; x00; x00; f; xef]]
      /\ play (Some 2) (Some 5) Sim.idle = (Ok tt, s2)
      /\ UART.tx (_uart s2)
         = UART.tx (_uart Sim.idle) ++ [[x7e; xff; x06; x0f; x00; f; t; xef]]
      /\ play None (Some (2 * 256 + 5)) Sim.idle = (Ok tt, s3)
      /\ UART.tx (_uart s3)
         = UART.tx (_uart Sim.idle) ++ [[x7e; xff; x06; x03; x00; f; t; xef]].
Proof.
  split; [lia|]. split; [lia|].
  apply (play_folder_forms 2 5 Sim.idle); lia.
Defined.

(** ** [_read_response]: what it reads and what it leaves *)

Lemma last_decoded_last (frames : list (list byte)) :
  forall res, frames <> [] -> last_decoded frames res = decode (last frames []).
Proof.
  induction frames as [|f frames IH]; intros res Hne; [congruence|].
  unfold last_decoded. cbn [fold_left].
  destruct frames as [|g frames']; [reflexivity|].
  change (last (f :: g :: frames') []) with (last (g :: frames') []).
  apply (IH (decode f)). discriminate.
Qed.

(** X5.  The bytes ready are a run of valid frames, then a chunk at which
    decoding fails (ten bytes with a wrong marker, or a last chunk of fewer
    than ten bytes, possibly none), then whatever follows.  The poller
    returns the last valid frame of the run (nothing for an empty run),
    consumes the failing chunk, and leaves what follows in the transport. *)
Theorem read_response_drain (frames : list (list byte)) (stop rest : list byte)
    (s : DFPlayer) :
  Forall (fun frame => decode frame <> None) frames ->
  decode stop = None ->
  length stop = 10%nat \/ (rest = [] /\ (length stop < 10)%nat) ->
  UART.rx (_uart s) = concat frames ++ stop ++ rest ->
  _read_response s = (Ok (decode (last frames [])), with_rx rest s).
Proof.
  intros Hv Hstop Hlen Hrx.
  assert (H1 : firstn 10 (stop ++ rest) = stop).
  { destruct Hlen as [H10|(-> & Hlt)]; [now apply firstn_frame|].
    rewrite app_nil_r. apply firstn_all2. lia. }
  assert (H2 : skipn 10 (stop ++ rest) = rest).
  { destruct Hlen as [H10|(-> & Hlt)]; [now apply skipn_frame|].
    rewrite app_nil_r. apply skipn_all2. lia. }
  rewrite (read_response_valid_prefix frames (stop ++ rest) s Hv);
    [|now rewrite H1 | exact Hrx].
  rewrite H2. f_equal. f_equal.
  destruct frames as [|f frames']; [reflexivity|].
  apply last_decoded_last. discriminate.
Qed.

Lemma read_response_drain_witness :
  Forall (fun frame => decode frame <> None)
    [Sim.reply x43 x00 x0f; Sim.status_stopped]
  /\ decode Sim.noise = None
  /\ (length Sim.noise = 10%nat
      \/ (Sim.status_stopped = [] /\ (length Sim.noise < 10)%nat))
  /\ UART.rx (_uart Sim.backlog)
     = concat [Sim.reply x43 x00 x0f; Sim.status_stopped]
       ++ Sim.noise ++ Sim.status_stopped
  /\ _read_response Sim.backlog
     = (Ok (decode (last [Sim.reply x43 x00 x0f; Sim.status_stopped] [])),
        with_rx Sim.status_stopped Sim.backlog).
Proof.
  assert (Hv : Forall (fun frame => decode frame <> None)
                 [Sim.reply x43 x00 x0f; Sim.status_stopped])
    by (repeat constructor; discriminate).
  assert (Hl : length Sim.noise = 10%nat
               \/ (Sim.status_stopped = [] /\ (length Sim.noise < 10)%nat))
    by (left; reflexivity).
  split; [exact Hv|]. split; [reflexivity|]. split; [exact Hl|].
  split; [reflexivity|].
  apply (read_response_drain [Sim.reply x43 x00 x0f; Sim.status_stopped]
           Sim.noise Sim.status_stopped Sim.backlog Hv eq_refl Hl eq_refl).
Defined.

Lemma with_rx_same (s : DFPlayer) : with_rx (UART.rx (_uart s)) s = s.
Proof. now destruct s as [[rx tx sc] la me sl]. Qed.

Lemma poll_effect (fuel : nat) :
  forall res s out,
    poll fuel res s = Some out ->
    (exists k, snd out = with_rx (skipn k (UART.rx (_uart s))) s)
    /\ (fst out = res \/ exists buf, decode buf = fst out /\ fst out <> None).
Proof.
  induction fuel as [|fuel IH]; intros res s out H; [discriminate|].
  cbn [poll] in H.
  destruct (UART.rx (_uart s)) as [|b l] eqn:E.
  - rewrite (read_data_empty s E) in H. injection H as <-. cbn [fst snd].
    split; [|now left]. exists 0%nat. cbn [skipn]. rewrite <- E.
    now rewrite with_rx_same.
  - rewrite read_data_ready in H by congruence. rewrite E in H.
    destruct (decode (firstn 10 (b :: l))) as [r|] eqn:Ed.
    + destruct (IH _ _ _ H) as ((k & Hk) & Hres). split.
      * exists (k + 10)%nat. rewrite Hk. cbn [with_rx _uart UART.rx].
        now rewrite skipn_skipn.
      * right. destruct Hres as [Hr|Hr]; [|exact Hr].
        exists (firstn 10 (b :: l)). rewrite Hr. split; [exact Ed | discriminate].
    + injection H as <-. cbn [fst snd]. split; [|now left].
      now exists 10%nat.
Qed.

(** X6.  [_read_response] never raises, writes or sleeps: it returns, and
    the object differs from before only by a number of bytes taken from the
    head of the receive buffer; a frame it returns has its command in
    [0, 255] and its data word in [0, 65535]. *)
Theorem read_response_effect (s : DFPlayer) :
  exists r s' k,
    _read_response s = (Ok r, s')
    /\ s' = with_rx (skipn k (UART.rx (_uart s))) s
    /\ (forall c d, r = Some (c, d) -> 0 <= c <= 255 /\ 0 <= d <= 65535).
Proof.
  destruct (read_response_total s) as (r & s' & H & Hp).
  destruct (poll_effect _ _ _ _ Hp) as ((k & Hk) & Hres).
  exists r, s', k. split; [exact H|]. split; [exact Hk|].
  intros c d ->. cbn [fst] in Hres.
  destruct Hres as [Hr|(buf & Hb & _)]; [discriminate|].
  now apply (decode_data_range buf).
Qed.

(** ** Queries: cost and silence *)

Lemma write_data_ok_inv (cmd dataL dataH : Z) (s s1 : DFPlayer) :
  _write_data cmd dataL dataH s = (Ok tt, s1) ->
  exists c l h,
    Bytes.to_Z c = cmd /\ Bytes.to_Z l = dataL /\ Bytes.to_Z h = dataH
    /\ s1 = mkDFPlayer (UART.write [x7e; xff; x06; c; x00; h; l; xef] (_uart s))
                       (_latency s) (_media s)
                       (slept s + settle_delay (_latency s) cmd).
Proof.
  intros H.
  destruct (write_data_cases cmd dataL dataH s)
    as [(_ & E)|[(c & l & h & Vc & Vl & Vh & _ & E)
                |(c & l & h & Vc & Vl & Vh & _ & E)]]; rewrite E in H;
    try discriminate.
  injection H as <-. now exists c, l, h.
Qed.

(** A query whose write returns runs the poller and returns. *)
Lemma query_run {A} (q : M A) (cmd dataL : Z) (f : option (Z * Z) -> A)
    (s : DFPlayer) :
  0 <= cmd <= 255 -> 0 <= dataL <= 255 ->
  0 <= settle_delay (_latency s) cmd ->
  q s = (_write_data cmd dataL 0 ;; r <- _read_response ;; ret (f r)) s ->
  exists s1 r k,
    _write_data cmd dataL 0 s = (Ok tt, s1)
    /\ _read_response s1 = (Ok r, with_rx (skipn k (UART.rx (_uart s1))) s1)
    /\ q s = (Ok (f r), with_rx (skipn k (UART.rx (_uart s1))) s1).
Proof.
  intros Hc Hl Hd Hq.
  destruct (write_data_cases cmd dataL 0 s)
    as [(Hn & _)|[(c & l & h & _ & _ & _ & Hd' & _)
                 |(c & l & h & _ & _ & _ & _ & E)]]; [lia | lia |].
  set (s1 := mkDFPlayer _ _ _ _) in E.
  destruct (read_response_total s1) as (r & s2 & Hr & Hp).
  destruct (poll_effect _ _ _ _ Hp) as ((k & Hk) & _). cbn [snd] in Hk. subst s2.
  exists s1, r, k. split; [exact E|]. split; [exact Hr|].
  rewrite Hq. rewrite (bind_ok _ _ _ _ _ E), (bind_ok _ _ _ _ _ Hr). reflexivity.
Qed.







(** ** Volume: range, round trip and float rounding *)

Lemma read_response_range (s s' : DFPlayer) (c d : Z) :
  _read_response s = (Ok (Some (c, d)), s') -> 0 <= c <= 255 /\ 0 <= d <= 65535.
Proof.
  intros H.
  destruct (read_response_total s) as (r & s2 & Hr & Hp).
  rewrite Hr in H. injection H as -> ->.
  destruct (poll_effect _ _ _ _ Hp) as (_ & [Hres|(buf & Hb & _)]);
    [discriminate|].
  now apply (decode_data_range buf).
Qed.

(** The frame of [set_volume] determines its volume byte. *)
Lemma set_volume_byte (percent : Z) (s : DFPlayer) (v : byte) :
  UART.tx (_uart (snd (set_volume percent s)))
  = UART.tx (_uart s) ++ [[x7e; xff; x06; x06; x00; x00; v; xef]] ->
  Bytes.to_Z v = Z.max 0 (Z.min 100 percent) * 30 / 100.
Proof.
  intros H.
  destruct (set_volume_sends percent s) as (v' & Vv & Tv & _).
  rewrite Tv in H. apply app_inv_head in H. now injection H as <-.
Qed.

Lemma all_from_spec (P : Z -> bool) (n : nat) :
  forall start,
    all_from P start n = true ->
    forall z, start <= z < start + Z.of_nat n -> P z = true.
Proof.
  induction n as [|n IH]; intros start H z Hz; [lia|].
  cbn [all_from] in H. apply andb_prop in H. destruct H as (H0 & H).
  destruct (Z.eq_dec z start) as [->|Hne]; [exact H0|].
  apply (IH (start + 1) H). lia.
Qed.

(** Over the whole 16-bit range the float computation of [get_volume] is
    the integer quotient or one below it, and it stays within 100 exactly
    for the raw values up to 30. *)
Lemma volume_pct_of_raw_near (raw : Z) :
  0 <= raw <= 65535 ->
  raw * 100 / 30 - 1 <= volume_pct_of_raw raw <= raw * 100 / 30
  /\ (volume_pct_of_raw raw <= 100 <-> raw <= 30).
Proof.
  intros H.
  assert (Hb : (let q := volume_pct_of_raw raw in
                (raw * 100 / 30 - 1 <=? q) && (q <=? raw * 100 / 30)
                && Bool.eqb (q <=? 100) (raw <=? 30)) = true).
  { apply (all_from_spec
             (fun r => let q := volume_pct_of_raw r in
                       (r * 100 / 30 - 1 <=? q) && (q <=? r * 100 / 30)
                       && Bool.eqb (q <=? 100) (r <=? 30))
             (Z.to_nat 65536) 0); [vm_compute; reflexivity|].
    rewrite Z2Nat.id; lia. }
  cbv zeta in Hb.
  apply andb_prop in Hb. destruct Hb as (Hb & He).
  apply andb_prop in Hb. destruct Hb as (Hlo & Hhi).
  apply Z.leb_le in Hlo, Hhi. apply Bool.eqb_prop in He.
  split; [lia|]. rewrite <- !Z.leb_le. now rewrite He.
Qed.

(** X9.  Volume round trip: when the value [set_volume(percent)] has sent
    comes back as the answer to a volume query, [get_volume] returns the
    clamped percentage or up to 3 points less, never more. *)
Theorem volume_round_trip (percent : Z) (v : byte) (s t t1 t2 : DFPlayer) :
  UART.tx (_uart (snd (set_volume percent s)))
  = UART.tx (_uart s) ++ [[x7e; xff; x06; x06; x00; x00; v; xef]] ->
  _write_data 0x43 0 0 t = (Ok tt, t1) ->
  _read_response t1 = (Ok (Some (0x43, Bytes.to_Z v)), t2) ->
  exists q,
    get_volume t = (Ok q, t2)
    /\ Z.max 0 (Z.min 100 percent) - 3 <= q <= Z.max 0 (Z.min 100 percent).
Proof.
  intros Hs Hw Hr.
  pose proof (set_volume_byte percent s v Hs) as Vv.
  eexists. split.
  - unfold get_volume.
    rewrite (bind_ok _ _ _ _ _ Hw), (bind_ok _ _ _ _ _ Hr). reflexivity.
  - cbn [Z.eqb Pos.eqb]. rewrite Vv.
    pose proof (clamp_range percent) as Hc.
    set (p := Z.max 0 (Z.min 100 percent)) in *.
    rewrite volume_pct_of_raw_exact by (Z.div_mod_to_equations; lia).
    Z.div_mod_to_equations. lia.
Qed.

Lemma volume_round_trip_witness :
  UART.tx (_uart (snd (set_volume 99 Sim.idle)))
  = UART.tx (_uart Sim.idle) ++ [[x7e; xff; x06; x06; x00; x00; x1d; xef]]
  /\ _write_data 0x43 0 0 (Sim.answering (Sim.reply x43 x00 x1d))
     = (Ok tt, snd (_write_data 0x43 0 0 (Sim.answering (Sim.reply x43 x00 x1d))))
  /\ _read_response
       (snd (_write_data 0x43 0 0 (Sim.answering (Sim.reply x43 x00 x1d))))
     = (Ok (Some (0x43, Bytes.to_Z x1d)),
        snd (get_volume (Sim.answering (Sim.reply x43 x00 x1d))))
  /\ exists q,
      get_volume (Sim.answering (Sim.reply x43 x00 x1d))
      = (Ok q, snd (get_volume (Sim.answering (Sim.reply x43 x00 x1d))))
      /\ Z.max 0 (Z.min 100 99) - 3 <= q <= Z.max 0 (Z.min 100 99).
Proof.
  assert (H1 : UART.tx (_uart (snd (set_volume 99 Sim.idle)))
               = UART.tx (_uart Sim.idle)
                 ++ [[x7e; xff; x06; x06; x00; x00; x1d; xef]])
    by (vm_compute; reflexivity).
  split; [exact H1|]. split; [reflexivity|]. split; [reflexivity|].
  eapply (volume_round_trip 99 x1d Sim.idle
            (Sim.answering (Sim.reply x43 x00 x1d)));
    [exact H1 | reflexivity | reflexivity].
Defined.

(** X10.  The value [set_volume] sends never exceeds [MAX_VOLUME] and grows
    with the percentage. *)
Theorem set_volume_monotone (p q : Z) (s : DFPlayer) :
  p <= q ->
  exists vp vq,
    UART.tx (_uart (snd (set_volume p s)))
    = UART.tx (_uart s) ++ [[x7e; xff; x06; x06; x00; x00; vp; xef]]
    /\ UART.tx (_uart (snd (set_volume q s)))
       = UART.tx (_uart s) ++ [[x7e; xff; x06; x06; x00; x00; vq; xef]]
    /\ 0 <= Bytes.to_Z vp <= Bytes.to_Z vq /\ Bytes.to_Z vq <= MAX_VOLUME.
Proof.
  intros Hpq.
  destruct (set_volume_sends p s) as (vp & Vp & Tp & _).
  destruct (set_volume_sends q s) as (vq & Vq & Tq & _).
  exists vp, vq.
  split; [exact Tp|]. split; [exact Tq|].
  rewrite Vp, Vq. unfold MAX_VOLUME.
  pose proof (clamp_range p). pose proof (clamp_range q).
  assert (Z.max 0 (Z.min 100 p) <= Z.max 0 (Z.min 100 q)) by lia.
  Z.div_mod_to_equations. lia.
Qed.

Lemma set_volume_monotone_witness :
  10 <= 250
  /\ exists vp vq,
      UART.tx (_uart (snd (set_volume 10 Sim.idle)))
      = UART.tx (_uart Sim.idle) ++ [[x7e; xff; x06; x06; x00; x00; vp; xef]]
      /\ UART.tx (_uart (snd (set_volume 250 Sim.idle)))
         = UART.tx (_uart Sim.idle) ++ [[x7e; xff; x06; x06; x00; x00; vq; xef]]
      /\ 0 <= Bytes.to_Z vp <= Bytes.to_Z vq /\ Bytes.to_Z vq <= MAX_VOLUME.
Proof.
  split; [lia|]. apply (set_volume_monotone 10 250 Sim.idle). lia.
Defined.

(** X11.  [get_volume] does not clamp: for whatever data word the device
    echoes to the volume query, the result is the integer quotient
    [raw * 100 / 30] or one below it (float rounding), and it is within 100
    exactly when the raw value is within [MAX_VOLUME]. *)
Theorem get_volume_unclamped (raw : Z) (t t1 t2 : DFPlayer) :
  _write_data 0x43 0 0 t = (Ok tt, t1) ->
  _read_response t1 = (Ok (Some (0x43, raw)), t2) ->
  exists q,
    get_volume t = (Ok q, t2)
    /\ raw * 100 / 30 - 1 <= q <= raw * 100 / 30
    /\ (q <= 100 <-> raw <= MAX_VOLUME).
Proof.
  intros Hw Hr.
  destruct (read_response_range _ _ _ _ Hr) as (_ & Hraw).
  exists (volume_pct_of_raw raw). split.
  - unfold get_volume.
    rewrite (bind_ok _ _ _ _ _ Hw), (bind_ok _ _ _ _ _ Hr). reflexivity.
  - apply volume_pct_of_raw_near. exact Hraw.
Qed.

Lemma get_volume_unclamped_witness :
  _write_data 0x43 0 0 (Sim.answering (Sim.reply x43 x00 x45))
  = (Ok tt, snd (_write_data 0x43 0 0 (Sim.answering (Sim.reply x43 x00 x45))))
  /\ _read_response
       (snd (_write_data 0x43 0 0 (Sim.answering (Sim.reply x43 x00 x45))))
     = (Ok (Some (0x43, 69)),
        snd (get_volume (Sim.answering (Sim.reply x43 x00 x45))))
  /\ exists q,
      get_volume (Sim.answering (Sim.reply x43 x00 x45))
      = (Ok q, snd (get_volume (Sim.answering (Sim.reply x43 x00 x45))))
      /\ 69 * 100 / 30 - 1 <= q <= 69 * 100 / 30
      /\ (q <= 100 <-> 69 <= MAX_VOLUME).
Proof.
  split; [reflexivity|]. split; [reflexivity|].
  eapply (get_volume_unclamped 69 (Sim.answering (Sim.reply x43 x00 x45)));
    reflexivity.
Defined.

(** ** [set_media] and [num_files]: arguments and stored media *)

(** X12.  [set_media] stores the media source before it writes.  A value
    that fits a byte is stored and sent with command 0x09, at a cost of
    200 ms; a value that does not raises with nothing sent and nothing
    slept, and is stored all the same. *)
Theorem set_media_stores (media : Z) (s : DFPlayer) :
  (0 <= media <= 255 ->
   exists m s',
     Bytes.to_Z m = media
     /\ set_media media s = (Ok tt, s')
     /\ _media s' = media
     /\ UART.tx (_uart s')
        = UART.tx (_uart s) ++ [[x7e; xff; x06; x09; x00; x00; m; xef]]
     /\ elapsed s s' = 200)
  /\ (~ (0 <= media <= 255) ->
      set_media media s
      = (Raise ValueError_bytes,
         mkDFPlayer (_uart s) (_latency s) media (slept s))).
Proof.
  split.
  - intros Hm. destruct (of_Z_in_range _ Hm) as (m & _ & Vm).
    exists m. eexists. split; [exact Vm|]. split.
    + unfold set_media.
      apply (write_data_bytes 0x09 media 0 x09 m x00); auto. cbn. lia.
    + unfold elapsed. cbn [_media _uart UART.write UART.tx slept].
      repeat split. unfold settle_delay. cbn. lia.
  - intros Hn. unfold set_media.
    destruct (write_data_cases2 0x09 media 0
                (mkDFPlayer (_uart s) (_latency s) media (slept s))
                ltac:(cbn; lia))
      as [(_ & E)|(c & l & h & _ & Vl & _ & _)]; [exact E|].
    pose proof (to_Z_range l). lia.
Qed.

(** X13.  After a [set_media] that returned, [num_files()] without
    arguments works with the media source just set: it sends the file-count
    query of USB disk, SD card or flash, and for any other source returns 0
    and leaves the object as it is. *)
Theorem num_files_after_set_media (media : Z) (s s1 : DFPlayer) :
  set_media media s = (Ok tt, s1) ->
  (media = MEDIA_U_DISK ->
   answers (num_files None None) 0x47 0 (fun d => d) 0 s1)
  /\ (media = MEDIA_SD ->
      answers (num_files None None) 0x48 0 (fun d => d) 0 s1)
  /\ (media = MEDIA_FLASH ->
      answers (num_files None None) 0x49 0 (fun d => d) 0 s1)
  /\ (media <> MEDIA_U_DISK -> media <> MEDIA_SD -> media <> MEDIA_FLASH ->
      num_files None None s1 = (Ok 0, s1)).
Proof.
  intros H. unfold set_media in H.
  destruct (write_data_ok_inv _ _ _ _ _ H) as (c & l & h & _ & _ & _ & Hs1).
  assert (Hm : or_else None (_media s1) = media) by (now subst s1).
  pose proof (num_files_media None media s1 Hm) as Hnf.
  repeat split.
  - intros ->. eapply answers_ext; [exact Hnf|].
    apply (query_answers 0x47 0); cbn; lia.
  - intros ->. eapply answers_ext; [exact Hnf|].
    apply (query_answers 0x48 0); cbn; lia.
  - intros ->. eapply answers_ext; [exact Hnf|].
    apply (query_answers 0x49 0); cbn; lia.
  - intros H1 H2 H5. now rewrite Hnf, dict_get_other.
Qed.

Lemma num_files_after_set_media_witness :
  set_media MEDIA_FLASH Sim.idle = (Ok tt, snd (set_media MEDIA_FLASH Sim.idle))
  /\ (MEDIA_FLASH = MEDIA_U_DISK ->
      answers (num_files None None) 0x47 0 (fun d => d) 0
        (snd (set_media MEDIA_FLASH Sim.idle)))
  /\ (MEDIA_FLASH = MEDIA_SD ->
      answers (num_files None None) 0x48 0 (fun d => d) 0
        (snd (set_media MEDIA_FLASH Sim.idle)))
  /\ (MEDIA_FLASH = MEDIA_FLASH ->
      answers (num_files None None) 0x49 0 (fun d => d) 0
        (snd (set_media MEDIA_FLASH Sim.idle)))
  /\ (MEDIA_FLASH <> MEDIA_U_DISK -> MEDIA_FLASH <> MEDIA_SD ->
      MEDIA_FLASH <> MEDIA_FLASH ->
      num_files None None (snd (set_media MEDIA_FLASH Sim.idle))
      = (Ok 0, snd (set_media MEDIA_FLASH Sim.idle))).
Proof.
  split; [reflexivity|].
  apply (num_files_after_set_media MEDIA_FLASH Sim.idle). reflexivity.
Defined.

(** Without a folder [num_files] returns. *)
Lemma num_files_no_folder_returns (media : option Z) (s : DFPlayer) :
  exists n s', num_files None media s = (Ok n, s').
Proof.
  pose proof (num_files_media media _ s eq_refl) as Hnf.
  destruct (dict_get media_query_table (or_else media (_media s)))
    as [cmd|] eqn:E; [|rewrite Hnf; eauto].
  unfold media_query_table in E. cbn [dict_get] in E.
  assert (Hc : cmd = 0x47 \/ cmd = 0x48 \/ cmd = 0x49).
  { repeat match type of E with
           | (if ?b then _ else _) = _ => destruct b
           end; try discriminate; injection E as <-; tauto. }
  assert (Hd : 0 <= settle_delay (_latency s) cmd)
    by (destruct Hc as [->|[->| ->]]; cbn; lia).
  destruct (query_run (num_files None media) cmd 0 _ s
              ltac:(lia) ltac:(lia) Hd Hnf)
    as (s1 & r & k & _ & _ & Hq).
  rewrite Hq. eauto.
Qed.

(** X14.  The arguments of [num_files].  With a folder, the call raises
    exactly when the folder does not fit a byte, nothing being written, and
    the media argument plays no part; folder 0 is a folder like any other.
    Without a folder the call never raises, and a media argument of 0 counts
    as no argument: the stored media source is used. *)
Theorem num_files_arguments (folder : Z) (media : option Z) (s : DFPlayer) :
  ((exists e s', num_files (Some folder) media s = (Raise e, s'))
   <-> ~ (0 <= folder <= 255))
  /\ (forall e s', num_files (Some folder) media s = (Raise e, s') ->
        e = ValueError_bytes /\ s' = s)
  /\ num_files (Some folder) media s = num_files (Some folder) None s
  /\ answers (num_files (Some 0) media) 0x4E 0 (fun d => d) 0 s
  /\ (exists n s', num_files None media s = (Ok n, s'))
  /\ num_files None (Some 0) s = num_files None None s.
Proof.
  split; [|split; [|split; [reflexivity|split; [|split; [|reflexivity]]]]].
  - cbn [num_files].
    destruct (write_data_cases2 0x4E folder 0 s ltac:(cbn; lia))
      as [(Hn & E)|(c & l & h & _ & Vl & _ & E)].
    + split; [intros _; lia|]. intros _.
      exists ValueError_bytes, s. now rewrite (bind_raise _ _ _ _ _ E).
    + split.
      * intros (e & s' & H). rewrite (bind_ok _ _ _ _ _ E) in H.
        destruct (read_response_ok (mkDFPlayer
                    (UART.write [x7e; xff; x06; c; x00; h; l; xef] (_uart s))
                    (_latency s) (_media s)
                    (slept s + settle_delay (_latency s) 0x4E)))
          as (r & s2 & Hr).
        rewrite (bind_ok _ _ _ _ _ Hr) in H. discriminate.
      * intros Hn. pose proof (to_Z_range l). lia.
  - intros e s' H. cbn [num_files] in H.
    destruct (write_data_cases2 0x4E folder 0 s ltac:(cbn; lia))
      as [(Hn & E)|(c & l & h & _ & Vl & _ & E)].
    + rewrite (bind_raise _ _ _ _ _ E) in H. injection H as <- <-. now split.
    + rewrite (bind_ok _ _ _ _ _ E) in H.
      destruct (read_response_ok (mkDFPlayer
                  (UART.write [x7e; xff; x06; c; x00; h; l; xef] (_uart s))
                  (_latency s) (_media s)
                  (slept s + settle_delay (_latency s) 0x4E)))
        as (r & s2 & Hr).
      rewrite (bind_ok _ _ _ _ _ Hr) in H. discriminate.
  - apply (query_answers 0x4E 0); cbn; lia.
  - apply num_files_no_folder_returns.
Qed.

(** ** Construction: outcomes, cost and final state *)







(** ** Every method: one frame at most, clean failures *)

Lemma effect_write_from (cmd dataL dataH : Z) (s s0 : DFPlayer) :
  _uart s0 = _uart s -> _latency s0 = _latency s -> slept s0 = slept s ->
  Api.call_effect s (_write_data cmd dataL dataH s0).
Proof.
  intros Hu Hl Hs. unfold Api.call_effect.
  destruct (write_data_cases cmd dataL dataH s0)
    as [(_ & ->)|[(c & l & h & Vc & _ & _ & Hd & ->)
                 |(c & l & h & Vc & _ & _ & _ & ->)]]; cbn [fst snd].
  - split; [exact Hl|]. split; [exact Hs|]. left. split; [now left | exact Hu].
  - cbn [_latency slept _uart UART.write UART.tx]. split; [exact Hl|].
    split; [exact Hs|]. right. split; [reflexivity|].
    split; [rewrite <- Hl, <- (settle_delay_neg _ _ Hd); exact Hd|].
    exists [x7e; xff; x06; c; x00; h; l; xef].
    split; [reflexivity | now rewrite Hu].
  - cbn [_latency]. split; [exact Hl|]. right.
    exists [x7e; xff; x06; c; x00; h; l; xef].
    split; [reflexivity|]. unfold elapsed, byte_at.
    cbn [_uart UART.write UART.tx slept nth]. rewrite Hu, Hl, Hs, Vc.
    split; [reflexivity | lia].
Qed.

Lemma effect_write (cmd dataL dataH : Z) (s : DFPlayer) :
  Api.call_effect s (_write_data cmd dataL dataH s).
Proof. now apply effect_write_from. Qed.

Lemma effect_query {A} (q : M A) (cmd dataL : Z) (f : option (Z * Z) -> A)
    (s : DFPlayer) :
  q s = (_write_data cmd dataL 0 ;; r <- _read_response ;; ret (f r)) s ->
  Api.call_effect s (Api.ignore q s).
Proof.
  intros Hq. unfold Api.ignore, bind at 1. rewrite Hq.
  pose proof (effect_write cmd dataL 0 s) as Hw. unfold Api.call_effect in *.
  destruct (_write_data cmd dataL 0 s) as [[[]|e] s1] eqn:E; cbn [fst snd] in Hw.
  - rewrite (bind_ok _ _ _ _ _ E).
    destruct (read_response_total s1) as (r & s2 & Hr & Hp).
    destruct (poll_effect _ _ _ _ Hp) as ((k & Hk) & _). cbn [snd] in Hk.
    rewrite (bind_ok _ _ _ _ _ Hr). unfold ret. cbn [fst snd]. subst s2.
    unfold elapsed in *. cbn [with_rx _latency _uart UART.tx slept]. exact Hw.
  - rewrite (bind_raise _ _ _ _ _ E). cbn [fst snd]. exact Hw.
Qed.

(** Every call has the effect described by [call_effect]. *)
Lemma exec_effect (c : Api.call) (s : DFPlayer) :
  Api.call_effect s (Api.exec c s).
Proof.
  destruct c; cbn [Api.exec];
    try (apply effect_write);
    try (refine (effect_query _ _ 0 _ s eq_refl)).
  - destruct folder, track; apply effect_write.
  - unfold play_advert. destruct (negb _); [|apply effect_write].
    unfold raise, Api.call_effect. cbn [fst snd].
    split; [reflexivity|]. split; [reflexivity|]. left. split; [now right|].
    reflexivity.
  - apply effect_write_from; reflexivity.
  - destruct folder as [folder|];
      [refine (effect_query _ 0x4E folder _ s eq_refl)|].
    pose proof (num_files_media media _ s eq_refl) as Hnf.
    destruct (dict_get media_query_table (or_else media (_media s))) as [cmd|].
    + exact (effect_query _ cmd 0 _ s Hnf).
    + unfold Api.ignore, bind, ret. rewrite Hnf.
      unfold Api.call_effect. cbn [fst snd]. split; [reflexivity|]. now left.
Qed.



(** X18.  A call that returns has written at most one frame, a well-formed
    command frame, and has slept exactly the settle delay of the command in
    that frame; a call that wrote nothing has not slept. *)
Theorem call_sends_at_most_one (c : Api.call) (s s' : DFPlayer) :
  Api.exec c s = (Ok tt, s') ->
  _latency s' = _latency s
  /\ ((UART.tx (_uart s') = UART.tx (_uart s) /\ elapsed s s' = 0)
      \/ exists frame,
          is_command_frame frame = true
          /\ UART.tx (_uart s') = UART.tx (_uart s) ++ [frame]
          /\ elapsed s s' = settle_delay (_latency s) (byte_at frame 3)).
Proof.
  intros H. pose proof (exec_effect c s) as He.
  unfold Api.call_effect in He. rewrite H in He. cbn [fst snd] in He.
  destruct He as (Hl & [(Ht & Hs)|Hf]).
  - split; [exact Hl|]. left. split; [exact Ht|]. unfold elapsed. lia.
  - split; [exact Hl|]. now right.
Qed.

Lemma call_sends_at_most_one_witness :
  Api.exec Api.do_get_status (Sim.answering Sim.status_stopped)
  = (Ok tt, snd (Api.exec Api.do_get_status (Sim.answering Sim.status_stopped)))
  /\ _latency (snd (Api.exec Api.do_get_status (Sim.answering Sim.status_stopped)))
     = _latency (Sim.answering Sim.status_stopped)
  /\ ((UART.tx (_uart (snd (Api.exec Api.do_get_status
                              (Sim.answering Sim.status_stopped))))
       = UART.tx (_uart (Sim.answering Sim.status_stopped))
       /\ elapsed (Sim.answering Sim.status_stopped)
            (snd (Api.exec Api.do_get_status (Sim.answering Sim.status_stopped)))
          = 0)
      \/ exists frame,
          is_command_frame frame = true
          /\ UART.tx (_uart (snd (Api.exec Api.do_get_status
                                    (Sim.answering Sim.status_stopped))))
             = UART.tx (_uart (Sim.answering Sim.status_stopped)) ++ [frame]
          /\ elapsed (Sim.answering Sim.status_stopped)
               (snd (Api.exec Api.do_get_status (Sim.answering Sim.status_stopped)))
             = settle_delay (_latency (Sim.answering Sim.status_stopped))
                 (byte_at frame 3)).
Proof.
  split; [reflexivity|].
  apply (call_sends_at_most_one Api.do_get_status
           (Sim.answering Sim.status_stopped)).
  reflexivity.
Defined.



(** ** Programs: what holds after any sequence of calls *)

Lemma run_effect (cs : list Api.call) :
  forall s,
    _latency (snd (Api.run cs s)) = _latency s
    /\ (0 <= _latency s -> slept s <= slept (snd (Api.run cs s)))
    /\ exists frames,
        UART.tx (_uart (snd (Api.run cs s))) = UART.tx (_uart s) ++ frames
        /\ forallb is_command_frame frames = true
        /\ (length frames <= length cs)%nat.
Proof.
  induction cs as [|c cs IH]; intros s.
  - cbn [Api.run ret snd]. split; [reflexivity|]. split; [lia|].
    exists []. now rewrite app_nil_r.
  - cbn [Api.run]. unfold bind.
    pose proof (exec_effect c s) as He. unfold Api.call_effect in He.
    destruct (Api.exec c s) as [[[]|e] s1]; cbn [fst snd] in He |- *.
    + destruct He as (Hl & Hf).
      destruct (IH s1) as (IHl & IHs & frames & IHt & IHw & IHn).
      rewrite IHl, Hl, IHt. split; [reflexivity|].
      destruct Hf as [(Ht & Hs)|(frame & Hw & Ht & Hs)].
      * split; [intros H0; rewrite <- Hs; apply IHs; lia|].
        exists frames. rewrite Ht. cbn [length]. repeat split; auto.
      * split.
        { intros H0. pose proof (settle_delay_nonneg _ (byte_at frame 3) H0).
          unfold elapsed in Hs. specialize (IHs ltac:(lia)). lia. }
        exists (frame :: frames). rewrite Ht, <- app_assoc. cbn [app forallb length].
        rewrite Hw, IHw. repeat split. lia.
    + destruct He as (Hl & Hs & [(_ & Hu)|(_ & _ & frame & Hw & Ht)]).
      * rewrite Hl, Hu, Hs. split; [reflexivity|]. split; [lia|].
        exists []. rewrite app_nil_r. repeat split. cbn [length]. lia.
      * rewrite Hl, Hs, Ht. split; [reflexivity|]. split; [lia|].
        exists [frame]. cbn [forallb length]. rewrite Hw.
        repeat split. lia.
Qed.

(** X20.  Whatever the calls and their arguments, every frame the driver
    transmits is a well-formed command frame: a frame log that is
    well-formed stays so over any program. *)
Theorem program_frames_well_formed (cs : list Api.call) (s : DFPlayer) :
  forallb is_command_frame (UART.tx (_uart s)) = true ->
  forallb is_command_frame (UART.tx (_uart (snd (Api.run cs s)))) = true.
Proof.
  intros H. destruct (run_effect cs s) as (_ & _ & frames & Ht & Hw & _).
  now rewrite Ht, forallb_app, H, Hw.
Qed.

Lemma program_frames_well_formed_witness :
  forallb is_command_frame (UART.tx (_uart Sim.backlog)) = true
  /\ forallb is_command_frame
       (UART.tx (_uart (snd (Api.run [Api.do_set_volume 150; Api.do_get_status;
                                      Api.do_play (Some 300) None; Api.do_stop]
                               Sim.backlog)))) = true.
Proof.
  split; [reflexivity|].
  apply (program_frames_well_formed
           [Api.do_set_volume 150; Api.do_get_status;
            Api.do_play (Some 300) None; Api.do_stop] Sim.backlog).
  reflexivity.
Defined.

(** X21.  Over any program the latency given at construction never
    changes, the frame log only grows, by at most one frame per call, and
    with a latency that is not negative the time slept never decreases. *)
Theorem program_log_and_clock (cs : list Api.call) (s : DFPlayer) :
  _latency (snd (Api.run cs s)) = _latency s
  /\ firstn (length (UART.tx (_uart s))) (UART.tx (_uart (snd (Api.run cs s))))
     = UART.tx (_uart s)
  /\ (length (UART.tx (_uart (snd (Api.run cs s))))
      <= length (UART.tx (_uart s)) + length cs)%nat
  /\ (0 <= _latency s -> slept s <= slept (snd (Api.run cs s))).
Proof.
  destruct (run_effect cs s) as (Hl & Hs & frames & Ht & _ & Hn).
  split; [exact Hl|]. rewrite Ht. split; [now apply firstn_frame|].
  split; [rewrite length_app; lia | exact Hs].
Qed.

(** ** Bytes left behind are read by the next query *)

(** X22.  What the poller leaves in the transport is the start of the next
    query's response.  With a latency that is not negative, ten invalid
    bytes followed by a valid status frame ready, and a device that stays
    silent, a first [get_status] returns [None] and a second one returns the
    status of that old frame. *)
Theorem stale_frame_answers_next_query (bad frame : list byte) (d : Z)
    (s : DFPlayer) :
  length bad = 10%nat -> decode bad = None ->
  decode frame = Some (0x42, d) ->
  UART.rx (_uart s) = bad ++ frame -> UART.script (_uart s) = [] ->
  0 <= _latency s ->
  exists s1,
    get_status s = (Ok None, s1)
    /\ UART.rx (_uart s1) = frame
    /\ fst (get_status s1) = Ok (Some d).
Proof.
  intros Hlen Hbad Hf Hrx Hsc H0.
  pose proof (write_data_bytes 0x42 0 0 x42 x00 x00 s eq_refl eq_refl eq_refl
                (settle_delay_nonneg _ _ H0)) as Hw.
  set (sw := mkDFPlayer _ _ _ _) in Hw.
  assert (Hrw : UART.rx (_uart sw) = bad ++ frame).
  { subst sw. cbn [_uart UART.write UART.rx]. rewrite Hrx, Hsc.
    cbn [hd]. now rewrite app_nil_r. }
  pose proof (read_response_invalid_first bad frame sw Hlen Hbad Hrw) as Hr.
  exists (with_rx frame sw). split; [|split; [reflexivity|]].
  - unfold get_status.
    now rewrite (bind_ok _ _ _ _ _ Hw), (bind_ok _ _ _ _ _ Hr).
  - pose proof (write_data_bytes 0x42 0 0 x42 x00 x00 (with_rx frame sw)
                  eq_refl eq_refl eq_refl (settle_delay_nonneg _ _ H0)) as Hw2.
    set (sw2 := mkDFPlayer _ _ _ _) in Hw2.
    assert (Hr2 : _read_response sw2 = (Ok (Some (0x42, d)), with_rx [] sw2)).
    { rewrite (read_response_valid_prefix [frame] [] sw2).
      - unfold last_decoded. cbn [fold_left skipn]. now rewrite Hf.
      - repeat constructor. congruence.
      - reflexivity.
      - subst sw2 sw. cbn [_uart UART.write UART.rx UART.script with_rx concat].
        rewrite Hsc. cbn [tl hd]. now rewrite !app_nil_r. }
    unfold get_status.
    rewrite (bind_ok _ _ _ _ _ Hw2), (bind_ok _ _ _ _ _ Hr2).
    reflexivity.
Qed.

Lemma stale_frame_answers_next_query_witness :
  length Sim.noise = 10%nat /\ decode Sim.noise = None
  /\ decode Sim.status_stopped = Some (0x42, 0x0200)
  /\ UART.rx (_uart (with_rx (Sim.noise ++ Sim.status_stopped) Sim.idle))
     = Sim.noise ++ Sim.status_stopped
  /\ UART.script (_uart (with_rx (Sim.noise ++ Sim.status_stopped) Sim.idle)) = []
  /\ 0 <= _latency (with_rx (Sim.noise ++ Sim.status_stopped) Sim.idle)
  /\ exists s1,
      get_status (with_rx (Sim.noise ++ Sim.status_stopped) Sim.idle)
      = (Ok None, s1)
      /\ UART.rx (_uart s1) = Sim.status_stopped
      /\ fst (get_status s1) = Ok (Some 0x0200).
Proof.
  assert (H : 0 <= _latency (with_rx (Sim.noise ++ Sim.status_stopped) Sim.idle))
    by (vm_compute; discriminate).
  split; [reflexivity|]. split; [reflexivity|]. split; [reflexivity|].
  split; [reflexivity|]. split; [reflexivity|]. split; [exact H|].
  apply (stale_frame_answers_next_query Sim.noise Sim.status_stopped 0x0200
           (with_rx (Sim.noise ++ Sim.status_stopped) Sim.idle));
    try reflexivity. exact H.
Defined.
